(** * Verification of the Opal JIRA ticket tool

    A shallow embedding of the three TypeScript sources of the tool
    - [jira-client.ts]  (the [JiraClient] class and [JiraClientError]),
    - [api/jira-tools.ts]  (the DEX deployment: project DHK, issue type Story),
    - the Petsmart variant of [jira-tools.ts] (project DTO, issue type Epic,
      with [convertOpalMarkdownToJira]),
    followed by the properties of the validation, mapping and error
    classification layers.

    JavaScript strings are sequences of UTF-16 code units; [length], [trim]
    and the regular expressions of the source all work on code units, so a
    string is a [list N] here.  Outbound HTTP traffic is made explicit: every
    call of the axios client is appended to a log and answered by a provider
    that owns an arbitrary state. *)

From Stdlib Require Import Ascii String.
From Stdlib Require Import List NArith ZArith Bool Lia.
Import ListNotations.

Set Implicit Arguments.

(* ================================================================== *)
(** ** JavaScript strings *)

Module JS.

(** A UTF-16 code unit.  Every value the program builds is below 65536; the
    functions below do not depend on that bound. *)
Definition char16 := N.
Definition jsstring := list char16.

Definition ch (a : ascii) : char16 := N_of_ascii a.

(** A string literal of the source whose characters are all ASCII. *)
Definition lit (s : string) : jsstring := map ch (list_ascii_of_string s).
Arguments lit s%_string.

(** ECMAScript LineTerminator: LF, CR, LS, PS. *)
Definition isLineTerminator (c : char16) : bool :=
  ((c =? 10) || (c =? 13) || (c =? 8232) || (c =? 8233))%N.

(** ECMAScript WhiteSpace + LineTerminator, the set removed by
    [String.prototype.trim] and matched by the class escape [\s]:
    TAB, VT, FF, SP, NBSP, U+1680, U+2000..U+200A, U+202F, U+205F, U+3000,
    U+FEFF and the four line terminators. *)
Definition isSpace (c : char16) : bool :=
  ((c =? 9) || (c =? 11) || (c =? 12) || (c =? 32) || (c =? 160)
   || (c =? 5760) || ((8192 <=? c) && (c <=? 8202))
   || (c =? 8239) || (c =? 8287) || (c =? 12288) || (c =? 65279))%N
  || isLineTerminator c.

Fixpoint trimStart (s : jsstring) : jsstring :=
  match s with
  | [] => []
  | c :: s' => if isSpace c then trimStart s' else s
  end.

Definition trimEnd (s : jsstring) : jsstring := rev (trimStart (rev s)).

(** [String.prototype.trim]. *)
Definition trim (s : jsstring) : jsstring := trimEnd (trimStart s).

(** Truthiness of a string value: only the empty string is falsy. *)
Definition truthy (s : jsstring) : bool :=
  match s with [] => false | _ :: _ => true end.

(** Truthiness of a possibly [undefined] string. *)
Definition truthy_opt (o : option jsstring) : bool :=
  match o with Some s => truthy s | None => false end.

(** [a || b] on possibly [undefined] strings. *)
Definition or_else (a b : option jsstring) : option jsstring :=
  if truthy_opt a then a else b.

(** [a || 'literal'] where the right operand is a string. *)
Definition or_str (a : option jsstring) (b : jsstring) : jsstring :=
  match a with
  | Some s => if truthy s then s else b
  | None => b
  end.

Fixpoint eqs (a b : jsstring) : bool :=
  match a, b with
  | [], [] => true
  | x :: a', y :: b' => (x =? y)%N && eqs a' b'
  | _, _ => false
  end.

Fixpoint startsWith (s p : jsstring) {struct p} : bool :=
  match p, s with
  | [], _ => true
  | x :: p', y :: s' => (x =? y)%N && startsWith s' p'
  | _ :: _, [] => false
  end.

(** [String.prototype.includes]. *)
Fixpoint includes (s p : jsstring) : bool :=
  startsWith s p ||
  match s with
  | [] => false
  | _ :: s' => includes s' p
  end.

(** Surrogate code units. *)
Definition isHighSurrogate (c : char16) : bool :=
  ((0xD800 <=? c) && (c <=? 0xDBFF))%N.
Definition isLowSurrogate (c : char16) : bool :=
  ((0xDC00 <=? c) && (c <=? 0xDFFF))%N.

(** [String.prototype.isWellFormed]: no unpaired surrogate, read as
    [CodePointAt] reads the string: a high surrogate takes the low one that
    follows it; a high surrogate without one, or a low surrogate met first,
    is unpaired. *)
Fixpoint isWellFormed (s : jsstring) : bool :=
  match s with
  | [] => true
  | c :: s' =>
      if isHighSurrogate c then
        match s' with
        | d :: s'' => isLowSurrogate d && isWellFormed s''
        | [] => false
        end
      else if isLowSurrogate c then false
      else isWellFormed s'
  end.

(** [p] occurs in [s] as a contiguous run of code units. *)
Definition occurs_in (p s : jsstring) : Prop :=
  exists pre post, s = pre ++ p ++ post.

End JS.
Import JS.

(* ================================================================== *)
(** ** Regular expressions

    A backtracking matcher in continuation-passing style for the fragment
    of ECMAScript regular expressions used by the source: literal code
    units, character classes, sequence, alternation, the greedy quantifiers
    [*] and [+], capture groups, and the assertions [^] and [$] under the
    [m] flag. *)

Module RegExp.

Inductive regex : Type :=
| Eps
| Chr (c : char16)
| Cls (p : char16 -> bool)
| Seq (r1 r2 : regex)
| Alt (r1 r2 : regex)
| Star (r : regex)
| Plus (r : regex)
| Grp (n : nat) (r : regex)
| BolM
| EolM.

(** Captures, most recent first. *)
Definition caps := list (nat * jsstring).

Fixpoint get_cap (n : nat) (cs : caps) : option jsstring :=
  match cs with
  | [] => None
  | (m, v) :: cs' => if Nat.eqb m n then Some v else get_cap n cs'
  end.

Section Matcher.

Variable R : Type.

(** A matcher state is the code unit before the current position ([None] at
    index 0), the input from the current position on, and the captures. *)
Definition cont := option char16 -> jsstring -> caps -> option R.

(** RepeatMatcher for [r*]: try one more iteration first (greedy), reject an
    iteration that consumed nothing, fall back to the continuation.  [fuel]
    is the length of the input at the first iteration; each iteration
    consumes, so it is never exhausted before the input is. *)
Fixpoint star_loop (m : cont -> cont) (k : cont) (fuel : nat) : cont :=
  fun prev s cs =>
    match fuel with
    | O => k prev s cs
    | S fuel' =>
        match m (fun p' s' c' =>
                   if Nat.ltb (length s') (length s)
                   then star_loop m k fuel' p' s' c'
                   else None) prev s cs with
        | Some x => Some x
        | None => k prev s cs
        end
    end.

Fixpoint rmatch (r : regex) (k : cont) : cont :=
  fun prev s cs =>
    match r with
    | Eps => k prev s cs
    | Chr c =>
        match s with
        | x :: s' => if (x =? c)%N then k (Some x) s' cs else None
        | [] => None
        end
    | Cls p =>
        match s with
        | x :: s' => if p x then k (Some x) s' cs else None
        | [] => None
        end
    | Seq r1 r2 => rmatch r1 (rmatch r2 k) prev s cs
    | Alt r1 r2 =>
        match rmatch r1 k prev s cs with
        | Some x => Some x
        | None => rmatch r2 k prev s cs
        end
    | Star r1 => star_loop (rmatch r1) k (length s) prev s cs
    | Plus r1 =>
        rmatch r1 (fun p' s' c' =>
                     star_loop (rmatch r1) k (length s') p' s' c') prev s cs
    | Grp n r1 =>
        rmatch r1 (fun p' s' c' =>
                     k p' s' ((n, firstn (length s - length s') s) :: c'))
               prev s cs
    | BolM =>
        match prev with
        | None => k prev s cs
        | Some c => if isLineTerminator c then k prev s cs else None
        end
    | EolM =>
        match s with
        | [] => k prev s cs
        | c :: _ => if isLineTerminator c then k prev s cs else None
        end
    end.

End Matcher.

(** One attempt at the current position: the input left after the match and
    the captures. *)
Definition match_here (r : regex) (prev : option char16) (s : jsstring)
  : option (jsstring * caps) :=
  rmatch r (fun _ s' cs => Some (s', cs)) prev s [].

(** [String.prototype.replace] with a global regular expression and a
    replacer function.  The scan goes left to right; [skip] counts the code
    units of the last match that are still to be stepped over.  After an
    empty match the scan advances by one code unit, copying it. *)
Fixpoint replace_loop (r : regex) (f : jsstring -> caps -> jsstring)
    (skip : nat) (prev : option char16) (s : jsstring) {struct s} : jsstring :=
  match skip with
  | S n =>
      match s with
      | [] => []
      | c :: t => replace_loop r f n (Some c) t
      end
  | O =>
      match match_here r prev s with
      | Some (s', cs) =>
          let len := length s - length s' in
          f (firstn len s) cs ++
          match s with
          | [] => []
          | c :: t =>
              match len with
              | O => c :: replace_loop r f 0 (Some c) t
              | S n => replace_loop r f n (Some c) t
              end
          end
      | None =>
          match s with
          | [] => []
          | c :: t => c :: replace_loop r f 0 (Some c) t
          end
      end
  end.

Definition replace_g (r : regex) (f : jsstring -> caps -> jsstring)
    (s : jsstring) : jsstring :=
  replace_loop r f 0 None s.

(** The code unit before the position reached after stepping over [a]. *)
Definition prev_after (prev : option char16) (a : jsstring) : option char16 :=
  match rev a with
  | [] => prev
  | c :: _ => Some c
  end.

(** The regular expression matching the literal string [l]. *)
Fixpoint Str (l : jsstring) : regex :=
  match l with
  | [] => Eps
  | [c] => Chr c
  | c :: l' => Seq (Chr c) (Str l')
  end.

(** [a1|a2|...|an] for a non-empty list of alternatives. *)
Fixpoint Alts (r : regex) (rs : list regex) : regex :=
  match rs with
  | [] => r
  | r' :: rs' => Alt r (Alts r' rs')
  end.

End RegExp.
Import RegExp.

(* ================================================================== *)
(** ** jira-client.ts *)

Module JiraClientModel.

(** What is thrown.  [JiraClientError] carries its message and HTTP status
    (0 when no response was received).  [OtherThrown] is any other thrown
    value: [err_message] is its [message] when it is an [Error] instance and
    [err_text] is its rendering inside a template literal. *)
Inductive Thrown : Type :=
| JiraClientError (message : jsstring) (status : Z)
| OtherThrown (err_message : option jsstring) (err_text : jsstring).

(** [new Error(msg)], rendered as ["Error: " + msg]. *)
Definition newError (msg : jsstring) : Thrown :=
  OtherThrown (Some msg) (lit "Error: " ++ msg).

(** The [URIError] that [encodeURIComponent] throws on a string with an
    unpaired surrogate, with the message V8 gives it. *)
Definition URIError : Thrown :=
  OtherThrown (Some (lit "URI malformed")) (lit "URIError: URI malformed").

Record JiraUser := { accountId : jsstring; displayName : jsstring }.

(** [CreateIssueResponse]. *)
Record CreateIssueResponse := {
  resp_id : jsstring;
  resp_key : jsstring;
  resp_self : jsstring
}.

(** The Atlassian Document Format value built for a description. *)
Record AdfText := { text : jsstring; text_type : jsstring }.
Record AdfBlock := { block_type : jsstring; block_content : list AdfText }.
Record AdfDoc := {
  doc_type : jsstring;
  doc_version : N;
  doc_content : list AdfBlock
}.

(** [CreateIssueRequest], flattened: [fields.project.key], [fields.summary],
    [fields.description?], [fields.issuetype.name],
    [fields.assignee?.accountId]. *)
Record CreateIssueRequest := {
  project_key : jsstring;
  summary : jsstring;
  description : option AdfDoc;
  issuetype_name : jsstring;
  assignee_accountId : option jsstring
}.

(** The body of an error response, as far as the interceptor reads it. *)
Record ErrorData := {
  data_message : option jsstring;
  data_errorMessages : option (list jsstring)
}.

(** A rejected axios request: with a response, with a request but no
    response, or neither. *)
Inductive AxiosError : Type :=
| HasResponse (status : Z) (data : option ErrorData) (message : jsstring)
| HasRequest (message : jsstring)
| NoRequest (message : jsstring).

Inductive AxiosResult (A : Type) : Type :=
| Resolved (data : A)
| Rejected (e : AxiosError).
Arguments Resolved {A} data.
Arguments Rejected {A} e.

(** The outbound calls: [GET /rest/api/3/user/search?query=<email>] (the
    query being [encodeURIComponent] of the email) and
    [POST /rest/api/3/issue] with its body. *)
Inductive Call : Type :=
| GetUserSearch (email : jsstring)
| PostIssue (body : CreateIssueRequest).

(** The response interceptor's error branch (constructor, second argument
    of [interceptors.response.use]). *)
Definition interceptor (e : AxiosError) : Thrown :=
  match e with
  | HasResponse status data message =>
      let errorMessage :=
        or_str
          (or_else
             (match data with Some d => data_message d | None => None end)
             (match data with
              | Some d =>
                  match data_errorMessages d with
                  | Some l => nth_error l 0
                  | None => None
                  end
              | None => None
              end))
          message in
      JiraClientError errorMessage status
  | HasRequest _ =>
      JiraClientError (lit "Network error: Unable to reach JIRA server") 0
  | NoRequest message => JiraClientError message 0
  end.

(** Helper of [JiraClient]: private [createDescriptionADF]. *)
Definition createDescriptionADF (t : jsstring) : AdfDoc :=
  {| doc_type := lit "doc";
     doc_version := 1;
     doc_content :=
       [ {| block_type := lit "paragraph";
            block_content := [ {| text := t; text_type := lit "text" |} ] |} ]
  |}.

Section Client.

(** The provider: an arbitrary state and its answer to each of the two
    requests. *)
Variable World : Type.
Variable http_get_users :
  jsstring -> World -> World * AxiosResult (option (list JiraUser)).
Variable http_post_issue :
  CreateIssueRequest -> World -> World * AxiosResult CreateIssueResponse.

(** State threaded through a computation: the provider, the calls made so
    far and the lines written with [console.warn], oldest first. *)
Record St := { world : World; calls : list Call; console : list jsstring }.

(** An asynchronous computation that may throw. *)
Definition M (A : Type) : Type := St -> St * (A + Thrown).

Definition ret {A} (a : A) : M A := fun st => (st, inl a).
Definition throw {A} (e : Thrown) : M A := fun st => (st, inr e).
Definition bind {A B} (m : M A) (f : A -> M B) : M B :=
  fun st =>
    match m st with
    | (st', inl a) => f a st'
    | (st', inr e) => (st', inr e)
    end.
Definition try_catch {A} (m : M A) (h : Thrown -> M A) : M A :=
  fun st =>
    match m st with
    | (st', inl a) => (st', inl a)
    | (st', inr e) => h e st'
    end.

(** [this.client.get] on the user search, through the interceptor. *)
Definition client_get_users (email : jsstring)
  : M (option (list JiraUser)) :=
  fun st =>
    let (w, r) := http_get_users email (world st) in
    let st' := {| world := w; calls := calls st ++ [GetUserSearch email];
                  console := console st |} in
    match r with
    | Resolved d => (st', inl d)
    | Rejected e => (st', inr (interceptor e))
    end.

(** [this.client.post('/rest/api/3/issue', issueData)]. *)
Definition client_post_issue (body : CreateIssueRequest)
  : M CreateIssueResponse :=
  fun st =>
    let (w, r) := http_post_issue body (world st) in
    let st' := {| world := w; calls := calls st ++ [PostIssue body];
                  console := console st |} in
    match r with
    | Resolved d => (st', inl d)
    | Rejected e => (st', inr (interceptor e))
    end.

Definition console_warn (line : jsstring) : M unit :=
  fun st =>
    ({| world := world st; calls := calls st;
        console := console st ++ [line] |}, inl tt).

(** The [catch] clause shared by the methods of [JiraClient]: a
    [JiraClientError] is rethrown, anything else is wrapped with status 0. *)
Definition rethrow_or_wrap {A} (prefix : jsstring) (e : Thrown) : M A :=
  match e with
  | JiraClientError _ _ => throw e
  | OtherThrown _ txt => throw (JiraClientError (prefix ++ txt) 0)
  end.

Definition createIssue (issueData : CreateIssueRequest)
  : M CreateIssueResponse :=
  try_catch (client_post_issue issueData)
            (rethrow_or_wrap (lit "Failed to create issue: ")).

(** [encodeURIComponent(email)] is evaluated first, inside the [try]: on an
    email that is not well formed it throws before any request is made. *)
Definition getUserByEmail (email : jsstring) : M JiraUser :=
  try_catch
    (if isWellFormed email then
       bind (client_get_users email) (fun users =>
         match users with
         | None | Some [] =>
             throw (JiraClientError
                      (lit "User with email " ++ email ++ lit " not found") 404)
         | Some (u :: _) =>
             ret {| accountId := accountId u; displayName := displayName u |}
         end)
     else throw URIError)
    (rethrow_or_wrap (lit "Failed to find user " ++ email ++ lit ": ")).

Definition createIssueWithText (projectKey issueType summary : jsstring)
    (description assigneeEmail : option jsstring) : M CreateIssueResponse :=
  let issueData :=
    {| project_key := projectKey;
       summary := summary;
       description := None;
       issuetype_name := issueType;
       assignee_accountId := None |} in
  let issueData :=
    if truthy_opt description
    then {| project_key := project_key issueData;
            summary := JiraClientModel.summary issueData;
            description :=
              option_map createDescriptionADF description;
            issuetype_name := issuetype_name issueData;
            assignee_accountId := assignee_accountId issueData |}
    else issueData in
  bind
    (match assigneeEmail with
     | Some email =>
         if truthy email
         then try_catch
                (bind (getUserByEmail email) (fun user =>
                   ret {| project_key := project_key issueData;
                          summary := JiraClientModel.summary issueData;
                          description :=
                            JiraClientModel.description issueData;
                          issuetype_name := issuetype_name issueData;
                          assignee_accountId := Some (accountId user) |}))
                (fun _ =>
                   bind (console_warn
                           (lit "Warning: Could not find user " ++ email ++
                            lit ", creating ticket without assignee"))
                        (fun _ => ret issueData))
         else ret issueData
     | None => ret issueData
     end)
    createIssue.

End Client.

End JiraClientModel.
Import JiraClientModel.

(* ================================================================== *)
(** ** Results shared by the two deployments of jira-tools.ts *)

Record CreateJiraTicketParams := {
  p_summary : option jsstring;       (* [undefined] when missing *)
  p_description : option jsstring
}.

Record CreateJiraTicketResult := {
  success : bool;
  ticketKey : jsstring;
  ticketUrl : jsstring;
  ticketId : jsstring;
  message : jsstring
}.

Record ConnectionResult := {
  c_success : bool;
  c_message : jsstring;
  c_projectAccessible : bool;
  c_assigneeFound : bool
}.

(** [error instanceof Error ? error.message : 'Unknown error']. *)
Definition message_or_unknown (m : option jsstring) : jsstring :=
  match m with
  | Some x => x
  | None => lit "Unknown error"
  end.

(* ================================================================== *)
(** ** api/jira-tools.ts: the DEX deployment *)

Module Dex.

Definition DEX_PROJECT_KEY : jsstring := lit "DHK".
Definition DEFAULT_ISSUE_TYPE : jsstring := lit "Story".
Definition ALEX_WALD_EMAIL : jsstring := lit "alex.wald@optimizely.com".

(** The message chosen in the [catch] clause of [createJiraTicket] for a
    [JiraClientError] with the given message and status. *)
Definition classify (status : Z) (message : jsstring) : jsstring :=
  if (status =? 400)%Z then
    lit "Failed to create JIRA ticket: Invalid request data. This could mean: 1) The DEX project (" ++ DEX_PROJECT_KEY ++ lit ") configuration has changed, 2) The Story issue type is not available, 3) Required custom fields are missing, or 4) Field values are invalid. Please contact your JIRA administrator to verify project configuration. Technical details: " ++ message
  else if (status =? 401)%Z then
    lit "Authentication failed when creating JIRA ticket. The API token may be expired or invalid. Please check the JIRA_API_TOKEN environment variable and ensure it has create permissions for the DEX project. Technical details: " ++ message
  else if (status =? 403)%Z then
    lit "Access denied when creating ticket in DEX project (" ++ DEX_PROJECT_KEY ++ lit "). Your account may not have permission to create Story issues in this project or assign tickets to Alex Wald. Please contact your JIRA administrator to verify permissions. Technical details: " ++ message
  else if (status =? 404)%Z then
    lit "DEX project (" ++ DEX_PROJECT_KEY ++ lit ") or Story issue type not found. The project may have been moved, renamed, or you may not have access to it. Please verify the project exists and you have appropriate permissions. Technical details: " ++ message
  else if (status =? 429)%Z then
    lit "Rate limit exceeded when creating JIRA ticket. Too many requests have been made to the JIRA API. Please wait a moment and try again. Technical details: " ++ message
  else
    lit "Failed to create JIRA ticket in DEX project: " ++ message.

Section Tools.

Variable World : Type.
Variable http_get_users :
  jsstring -> World -> World * AxiosResult (option (list JiraUser)).
Variable http_post_issue :
  CreateIssueRequest -> World -> World * AxiosResult CreateIssueResponse.
(** [process.env.JIRA_BASE_URL]. *)
Variable env_JIRA_BASE_URL : option jsstring.

Definition createJiraTicket (params : CreateJiraTicketParams)
  : M World CreateJiraTicketResult :=
  let description := p_description params in
  match p_summary params with
  | None => throw (newError (lit "Summary is required and cannot be empty"))
  | Some summary =>
      if negb (truthy summary) || Nat.eqb (length (trim summary)) 0 then
        throw (newError (lit "Summary is required and cannot be empty"))
      else if (255 <? N.of_nat (length summary))%N then
        throw (newError (lit "Summary must be 255 characters or less"))
      else if truthy_opt description &&
              match description with
              | Some d => (32767 <? N.of_nat (length d))%N
              | None => false
              end then
        throw (newError (lit "Description must be 32,767 characters or less"))
      else
        try_catch
          (bind (createIssueWithText http_get_users http_post_issue
                   DEX_PROJECT_KEY DEFAULT_ISSUE_TYPE (trim summary)
                   (option_map trim description) (Some ALEX_WALD_EMAIL))
             (fun result =>
                let baseUrl := or_str env_JIRA_BASE_URL [] in
                let ticketUrl := baseUrl ++ lit "/browse/" ++ resp_key result in
                ret {| success := true;
                       ticketKey := resp_key result;
                       ticketUrl := ticketUrl;
                       ticketId := resp_id result;
                       message :=
                         lit "Successfully created JIRA ticket " ++
                         resp_key result ++
                         lit " in DEX project. The ticket has been assigned to Alex Wald and can be viewed at " ++
                         ticketUrl |}))
          (fun error =>
             match error with
             | JiraClientError msg status =>
                 throw (newError (classify status msg))
             | OtherThrown m _ =>
                 throw (newError
                          (lit "Unexpected error creating JIRA ticket: " ++
                           message_or_unknown m))
             end)
  end.

Definition validateJiraConnection : M World ConnectionResult :=
  try_catch
    (let testResult :=
       {| c_success := true;
          c_message := lit "JIRA connection validated successfully";
          c_projectAccessible := true;
          c_assigneeFound := true |} in
     try_catch
       (bind (getUserByEmail http_get_users ALEX_WALD_EMAIL)
             (fun _ => ret testResult))
       (fun _ =>
          ret {| c_success := c_success testResult;
                 c_message :=
                   c_message testResult ++
                   lit " (Warning: Could not find user " ++
                   ALEX_WALD_EMAIL ++ lit ")";
                 c_projectAccessible := c_projectAccessible testResult;
                 c_assigneeFound := false |}))
    (fun error =>
       match error with
       | JiraClientError msg _ =>
           ret {| c_success := false;
                  c_message := lit "JIRA connection failed: " ++ msg;
                  c_projectAccessible := false;
                  c_assigneeFound := false |}
       | OtherThrown m _ =>
           ret {| c_success := false;
                  c_message :=
                    lit "Unexpected error validating JIRA connection: " ++
                    message_or_unknown m;
                  c_projectAccessible := false;
                  c_assigneeFound := false |}
       end).

End Tools.

End Dex.

(* ================================================================== *)
(** ** jira-tools.ts, Petsmart deployment (with the markdown conversion) *)

Module Petsmart.

Definition PETSMART_PROJECT_KEY : jsstring := lit "DTO".
Definition DEFAULT_ISSUE_TYPE : jsstring := lit "Epic".
Definition PETSMART_ASSIGNEE_EMAIL : jsstring := lit "oruhland@petsmart.com".

(** [[-*]] and [[ x]]. *)
Definition isDashOrStar (c : char16) : bool :=
  ((c =? ch "-") || (c =? ch "*"))%N.
Definition isBlankOrX (c : char16) : bool :=
  ((c =? ch " ") || (c =? ch "x"))%N.
(** [.] without the [s] flag: anything but a line terminator. *)
Definition isDot (c : char16) : bool := negb (isLineTerminator c).

(** [/^\s*[-*]\s*\[([ x])\]\s*(.+)$/gm] *)
Definition checkbox_re : regex :=
  Seq BolM
  (Seq (Star (Cls isSpace))
  (Seq (Cls isDashOrStar)
  (Seq (Star (Cls isSpace))
  (Seq (Chr (ch "["))
  (Seq (Grp 1 (Cls isBlankOrX))
  (Seq (Chr (ch "]"))
  (Seq (Star (Cls isSpace))
  (Seq (Grp 2 (Plus (Cls isDot)))
       EolM)))))))).

(** The replacer [(match, checked, text) => `[] ${text}`]. *)
Definition checkbox_replacer (_ : jsstring) (cs : caps) : jsstring :=
  lit "[] " ++
  match get_cap 2 cs with
  | Some t => t
  | None => lit "undefined"
  end.

(** The keys and values of [emojiMap], in source order.  The keys are the
    code units of the literals as they stand in the source file. *)
Definition emojiMap : list (jsstring * jsstring) :=
  [ ([0xf8ff; 0xfc; 0xf2; 0xc4]%N, lit ":smiley:");
    ([0xf8ff; 0xfc; 0xf2; 0xe4]%N, lit ":blush:");
    ([0xf8ff; 0xfc; 0xf2; 0xe9]%N, lit ":sunglasses:");
    ([0xf8ff; 0xfc; 0xeb; 0xe7]%N, lit ":thumbsup:");
    ([0xf8ff; 0xfc; 0xeb; 0xe9]%N, lit ":thumbsdown:");
    ([0x201a; 0xf9; 0xa7; 0xd4; 0x220f; 0xe8]%N, lit ":heart:");
    ([0xf8ff; 0xfc; 0xe9; 0xe2]%N, lit ":tada:");
    ([0xf8ff; 0xfc; 0xf6; 0xc4]%N, lit ":rocket:");
    ([0x201a; 0xf6; 0x2020; 0xd4; 0x220f; 0xe8]%N, lit ":warning:");
    ([0x201a; 0xf9; 0xe5]%N, lit ":x:");
    ([0x201a; 0xfa; 0xd6]%N, lit ":white_check_mark:");
    ([0xf8ff; 0xfc; 0xec; 0xf9]%N, lit ":memo:");
    ([0xf8ff; 0xfc; 0xed; 0xb0]%N, lit ":bulb:");
    ([0xf8ff; 0xfc; 0xee; 0xdf]%N, lit ":wrench:");
    ([0x201a; 0x2260; 0xea]%N, lit ":star:") ].

Fixpoint lookup (m : list (jsstring * jsstring)) (key : jsstring)
  : option jsstring :=
  match m with
  | [] => None
  | (k, v) :: m' => if eqs k key then Some v else lookup m' key
  end.

(** The alternation of the fifteen emoji literals, in source order (the
    same order as the keys of [emojiMap]). *)
Definition emoji_re : regex :=
  match map (fun kv => Str (fst kv)) emojiMap with
  | [] => Eps
  | r :: rs => Alts r rs
  end.

(** The replacer [(emoji) => emojiMap[emoji] || emoji]. *)
Definition emoji_replacer (emoji : jsstring) (_ : caps) : jsstring :=
  or_str (lookup emojiMap emoji) emoji.

(** [/\n\n/g] and its replacement string ['\n\n'] (which holds no [$]
    pattern, so it is inserted as it is). *)
Definition blank_line_re : regex := Seq (Chr 10%N) (Chr 10%N).
Definition blank_line_replacer (_ : jsstring) (_ : caps) : jsstring :=
  [10; 10]%N.

Definition convertOpalMarkdownToJira (opalMarkdown : jsstring) : jsstring :=
  let jiraMarkdown := opalMarkdown in
  let jiraMarkdown := replace_g checkbox_re checkbox_replacer jiraMarkdown in
  let jiraMarkdown := replace_g emoji_re emoji_replacer jiraMarkdown in
  let jiraMarkdown :=
    replace_g blank_line_re blank_line_replacer jiraMarkdown in
  jiraMarkdown.

(** The message chosen in the [catch] clause of [createJiraTicket] for a
    [JiraClientError] with the given message and status. *)
Definition classify (status : Z) (message : jsstring) : jsstring :=
  if (status =? 400)%Z then
    lit "Failed to create JIRA ticket: Invalid request data. This could mean: 1) The Petsmart project (" ++ PETSMART_PROJECT_KEY ++ lit ") configuration has changed, 2) The Epic issue type is not available, 3) Required custom fields are missing, or 4) Field values are invalid. Please contact your JIRA administrator to verify project configuration. Technical details: " ++ message
  else if (status =? 401)%Z then
    lit "Authentication failed when creating JIRA ticket. The API token may be expired or invalid. Please check the JIRA_API_TOKEN environment variable and ensure it has create permissions for the Petsmart project. Technical details: " ++ message
  else if (status =? 403)%Z then
    lit "Access denied when creating ticket in Petsmart project (" ++ PETSMART_PROJECT_KEY ++ lit "). Your account may not have permission to create Epic issues in this project or assign tickets to " ++ PETSMART_ASSIGNEE_EMAIL ++ lit ". Please contact your JIRA administrator to verify permissions. Technical details: " ++ message
  else if (status =? 404)%Z then
    lit "Petsmart project (" ++ PETSMART_PROJECT_KEY ++ lit ") or Epic issue type not found. The project may have been moved, renamed, or you may not have access to it. Please verify the project exists and you have appropriate permissions. Technical details: " ++ message
  else if (status =? 429)%Z then
    lit "Rate limit exceeded when creating JIRA ticket. Too many requests have been made to the JIRA API. Please wait a moment and try again. Technical details: " ++ message
  else
    lit "Failed to create JIRA ticket in DEX project: " ++ message.

Section Tools.

Variable World : Type.
Variable http_get_users :
  jsstring -> World -> World * AxiosResult (option (list JiraUser)).
Variable http_post_issue :
  CreateIssueRequest -> World -> World * AxiosResult CreateIssueResponse.
(** [process.env.JIRA_BASE_URL]. *)
Variable env_JIRA_BASE_URL : option jsstring.

Definition createJiraTicket (params : CreateJiraTicketParams)
  : M World CreateJiraTicketResult :=
  let description := p_description params in
  match p_summary params with
  | None => throw (newError (lit "Summary is required and cannot be empty"))
  | Some summary =>
      if negb (truthy summary) || Nat.eqb (length (trim summary)) 0 then
        throw (newError (lit "Summary is required and cannot be empty"))
      else if (255 <? N.of_nat (length summary))%N then
        throw (newError (lit "Summary must be 255 characters or less"))
      else if truthy_opt description &&
              match description with
              | Some d => (32767 <? N.of_nat (length d))%N
              | None => false
              end then
        throw (newError (lit "Description must be 32,767 characters or less"))
      else
        try_catch
          (let convertedDescription :=
             match description with
             | Some d =>
                 if truthy d then Some (convertOpalMarkdownToJira (trim d))
                 else None
             | None => None
             end in
           bind (createIssueWithText http_get_users http_post_issue
                   PETSMART_PROJECT_KEY DEFAULT_ISSUE_TYPE (trim summary)
                   convertedDescription (Some PETSMART_ASSIGNEE_EMAIL))
             (fun result =>
                let baseUrl := or_str env_JIRA_BASE_URL [] in
                let ticketUrl := baseUrl ++ lit "/browse/" ++ resp_key result in
                ret {| success := true;
                       ticketKey := resp_key result;
                       ticketUrl := ticketUrl;
                       ticketId := resp_id result;
                       message :=
                         lit "Successfully created JIRA ticket " ++
                         resp_key result ++
                         lit " in Petsmart DTO project. Attempted to assign to oruhland@petsmart.com. Check the ticket to verify assignment. View at " ++
                         ticketUrl |}))
          (fun error =>
             match error with
             | JiraClientError msg status =>
                 throw (newError (classify status msg))
             | OtherThrown m _ =>
                 throw (newError
                          (lit "Unexpected error creating JIRA ticket: " ++
                           message_or_unknown m))
             end)
  end.

Definition validateJiraConnection : M World ConnectionResult :=
  try_catch
    (let testResult :=
       {| c_success := true;
          c_message := lit "JIRA connection validated successfully";
          c_projectAccessible := true;
          c_assigneeFound := true |} in
     try_catch
       (bind (getUserByEmail http_get_users PETSMART_ASSIGNEE_EMAIL)
             (fun _ => ret testResult))
       (fun _ =>
          ret {| c_success := c_success testResult;
                 c_message :=
                   c_message testResult ++
                   lit " (Warning: Could not find user " ++
                   PETSMART_ASSIGNEE_EMAIL ++ lit ")";
                 c_projectAccessible := c_projectAccessible testResult;
                 c_assigneeFound := false |}))
    (fun error =>
       match error with
       | JiraClientError msg _ =>
           ret {| c_success := false;
                  c_message := lit "JIRA connection failed: " ++ msg;
                  c_projectAccessible := false;
                  c_assigneeFound := false |}
       | OtherThrown m _ =>
           ret {| c_success := false;
                  c_message :=
                    lit "Unexpected error validating JIRA connection: " ++
                    message_or_unknown m;
                  c_projectAccessible := false;
                  c_assigneeFound := false |}
       end).

End Tools.

End Petsmart.

(* ================================================================== *)
(** ** api/index.ts: the health route and the bearer-token middleware *)

Module Index.

(** What a handler sends: the status code and the JSON body. *)
Record HttpResponse (B : Type) := { code : Z; json : B }.
Arguments code {B} _.
Arguments json {B} _.

(** The body of [GET /health]: [jira] on success, [error] on failure. *)
Record HealthJson := {
  h_status : jsstring;
  h_timestamp : jsstring;
  h_jira : option ConnectionResult;
  h_error : option jsstring
}.

Record ErrorJson := { e_error : jsstring; e_message : jsstring }.

(** A middleware either calls [next()] or answers itself. *)
Inductive MiddlewareResult : Type :=
| Next
| Respond (r : HttpResponse ErrorJson).

Section Routes.

Variable World : Type.

(** The handler of [app.get("/health", ...)].  [validateJiraConnection] is
    the function imported from [./jira-tools]; [now] is what
    [new Date().toISOString()] gives when the answer is written.
    [res.json] without [res.status] answers 200. *)
Definition healthHandler (validateJiraConnection : M World ConnectionResult)
    (now : jsstring) : M World (HttpResponse HealthJson) :=
  try_catch
    (bind validateJiraConnection (fun jiraStatus =>
       ret {| code := 200;
              json := {| h_status := lit "healthy";
                         h_timestamp := now;
                         h_jira := Some jiraStatus;
                         h_error := None |} |}))
    (fun error =>
       ret {| code := 500;
              json := {| h_status := lit "unhealthy";
                         h_timestamp := now;
                         h_jira := None;
                         h_error :=
                           Some (message_or_unknown
                                   match error with
                                   | JiraClientError m _ => Some m
                                   | OtherThrown m _ => m
                                   end) |} |}).

End Routes.

(** The middleware mounted on [/tools/create_jira_ticket]:
    [authorization] is [req.headers.authorization]. *)
Definition authMiddleware (bearerToken : jsstring)
    (authorization : option jsstring) : MiddlewareResult :=
  if negb (truthy_opt authorization) ||
     match authorization with
     | Some authHeader => negb (eqs authHeader (lit "Bearer " ++ bearerToken))
     | None => true
     end
  then Respond
         {| code := 401;
            json := {| e_error := lit "Unauthorized";
                       e_message :=
                         lit "Valid bearer token required for tool execution" |} |}
  else Next.

(** [if (bearerToken) app.use(...) else console.warn(...)]: the middleware
    installed at start-up, if any, and the lines written to the console. *)
Definition installAuth (env_BEARER_TOKEN : option jsstring)
  : option (option jsstring -> MiddlewareResult) * list jsstring :=
  match env_BEARER_TOKEN with
  | Some bearerToken =>
      if truthy bearerToken
      then (Some (authMiddleware bearerToken), [])
      else (None,
            [lit "WARNING: No BEARER_TOKEN configured. Tool endpoints will be unprotected."])
  | None =>
      (None,
       [lit "WARNING: No BEARER_TOKEN configured. Tool endpoints will be unprotected."])
  end.

(** What the installed middleware, if any, does with a request. *)
Definition toolGate (env_BEARER_TOKEN : option jsstring)
    (authorization : option jsstring) : MiddlewareResult :=
  match fst (installAuth env_BEARER_TOKEN) with
  | Some middleware => middleware authorization
  | None => Next
  end.

End Index.

(* ================================================================== *)
(** * Vocabulary of the properties *)

(** ** Requests and provider answers *)

Module Requests.

(** Rule 1: the summary is missing or trims to the empty string. *)
Definition summary_required (p : CreateJiraTicketParams) : bool :=
  match p_summary p with
  | None => true
  | Some s => Nat.eqb (length (trim s)) 0
  end.

(** Rule 2: the summary, untrimmed, is longer than 255 code units. *)
Definition summary_too_long (p : CreateJiraTicketParams) : bool :=
  match p_summary p with
  | Some s => (255 <? N.of_nat (length s))%N
  | None => false
  end.

(** Rule 3: a description is present and longer than 32767 code units. *)
Definition description_too_long (p : CreateJiraTicketParams) : bool :=
  match p_description p with
  | Some d => (32767 <? N.of_nat (length d))%N
  | None => false
  end.

(** A request that passes the three rules. *)
Definition valid (p : CreateJiraTicketParams) : bool :=
  negb (summary_required p) && negb (summary_too_long p)
  && negb (description_too_long p).

Inductive Violation : Type :=
| SummaryRequired
| SummaryTooLong
| DescriptionTooLong.

(** The first rule a request breaks. *)
Definition first_violation (p : CreateJiraTicketParams) (v : Violation)
  : Prop :=
  match v with
  | SummaryRequired => summary_required p = true
  | SummaryTooLong => summary_required p = false /\ summary_too_long p = true
  | DescriptionTooLong =>
      summary_required p = false /\ summary_too_long p = false /\
      description_too_long p = true
  end.

(** The message of the [Error] thrown for each rule. *)
Definition violation_message (v : Violation) : jsstring :=
  match v with
  | SummaryRequired => lit "Summary is required and cannot be empty"
  | SummaryTooLong => lit "Summary must be 255 characters or less"
  | DescriptionTooLong => lit "Description must be 32,767 characters or less"
  end.

(** The summary of a request, the empty string when it is missing. *)
Definition summary_of (p : CreateJiraTicketParams) : jsstring :=
  match p_summary p with
  | Some s => s
  | None => []
  end.

(** The description is absent, empty or only white space. *)
Definition description_blank (p : CreateJiraTicketParams) : bool :=
  match p_description p with
  | Some d => negb (truthy (trim d))
  | None => true
  end.

(** The answer to the user search resolves no account: the request was
    rejected, or it carried no user. *)
Definition lookup_fails (r : AxiosResult (option (list JiraUser))) : bool :=
  match r with
  | Resolved (Some (_ :: _)) => false
  | _ => true
  end.

(** The account the user search resolves, if any: the first user. *)
Definition resolved_account (r : AxiosResult (option (list JiraUser)))
  : option jsstring :=
  match r with
  | Resolved (Some (u :: _)) => Some (accountId u)
  | _ => None
  end.

(** The body posted for a summary, a description and a resolved account. *)
Definition issue_body (projectKey issueType summ : jsstring)
    (desc account : option jsstring) : CreateIssueRequest :=
  {| project_key := projectKey;
     summary := summ;
     description :=
       match desc with
       | Some d => if truthy d then Some (createDescriptionADF d) else None
       | None => None
       end;
     issuetype_name := issueType;
     assignee_accountId := account |}.

(** The line written to the console when the account is not resolved. *)
Definition lookup_warning (email : jsstring)
    (r : AxiosResult (option (list JiraUser))) : list jsstring :=
  if lookup_fails r
  then [lit "Warning: Could not find user " ++ email ++
        lit ", creating ticket without assignee"]
  else [].

(** A document of one paragraph holding one run of text. *)
Definition one_paragraph (t : jsstring) : AdfDoc :=
  {| doc_type := lit "doc";
     doc_version := 1;
     doc_content :=
       [ {| block_type := lit "paragraph";
            block_content := [ {| text := t; text_type := lit "text" |} ] |} ]
  |}.

(** The bodies the two deployments post for a request. *)
Definition dex_body (p : CreateJiraTicketParams)
    (r : AxiosResult (option (list JiraUser))) : CreateIssueRequest :=
  issue_body Dex.DEX_PROJECT_KEY Dex.DEFAULT_ISSUE_TYPE
             (trim (summary_of p)) (option_map trim (p_description p))
             (resolved_account r).

Definition petsmart_body (p : CreateJiraTicketParams)
    (r : AxiosResult (option (list JiraUser))) : CreateIssueRequest :=
  issue_body Petsmart.PETSMART_PROJECT_KEY Petsmart.DEFAULT_ISSUE_TYPE
             (trim (summary_of p))
             (match p_description p with
              | Some d =>
                  if truthy d
                  then Some (Petsmart.convertOpalMarkdownToJira (trim d))
                  else None
              | None => None
              end)
             (resolved_account r).

(** The state after the two calls of a valid request. *)
Definition after_calls {World} (st : St World) (w : World) (email : jsstring)
    (r : AxiosResult (option (list JiraUser))) (body : CreateIssueRequest)
  : St World :=
  {| world := w;
     calls := calls st ++ [GetUserSearch email; PostIssue body];
     console := console st ++ lookup_warning email r |}.

(** The five statuses with a diagnosis of their own. *)
Definition diagnosed (status : Z) : bool :=
  ((status =? 400) || (status =? 401) || (status =? 403) || (status =? 404)
   || (status =? 429))%Z.

(** The words that name the theme of each diagnosis, as they stand in the
    messages. *)
Definition theme_keyword (status : Z) : jsstring :=
  if (status =? 400)%Z then lit "Invalid request data"
  else if (status =? 401)%Z then lit "Authentication"
  else if (status =? 403)%Z then lit "Access denied"
  else if (status =? 404)%Z then lit "not found"
  else if (status =? 429)%Z then lit "Rate limit exceeded"
  else [].

(** The statuses whose diagnosis names the project key. *)
Definition names_project_key (status : Z) : bool :=
  ((status =? 400) || (status =? 403) || (status =? 404))%Z.

End Requests.

(** ** Check-lists *)

Module Checklist.

Import Petsmart.

(** A line of a description: a checkbox item [<bullet> [<mark>] <text>] or
    any other line. *)
Inductive Line : Type :=
| Item (bullet mark : char16) (text : jsstring)
| Plain (text : jsstring).

Definition render (l : Line) : jsstring :=
  match l with
  | Item b m t => [b; ch " "; ch "["; m; ch "]"; ch " "] ++ t
  | Plain t => t
  end.

(** What the normalization is meant to make of a line. *)
Definition rewritten (l : Line) : jsstring :=
  match l with
  | Item _ _ t => lit "[] " ++ t
  | Plain t => t
  end.

(** The same line with its box unchecked. *)
Definition uncheck (l : Line) : Line :=
  match l with
  | Item b _ t => Item b (ch " ") t
  | Plain t => Plain t
  end.

(** A text that is not empty, holds no line terminator and does not start
    with white space. *)
Definition text_ok (t : jsstring) : bool :=
  match t with
  | [] => false
  | c :: _ => negb (isSpace c) && forallb isDot t
  end.

(** The bullet is [-] or [*], the mark is a blank or [x]; a plain line
    starts with neither white space nor a bullet. *)
Definition line_ok (l : Line) : bool :=
  match l with
  | Item b m t => isDashOrStar b && isBlankOrX m && text_ok t
  | Plain t =>
      text_ok t && match t with [] => false | c :: _ => negb (isDashOrStar c) end
  end.

(** Lines joined by a line feed. *)
Fixpoint join_lines (ls : list jsstring) : jsstring :=
  match ls with
  | [] => []
  | [l] => l
  | l :: ls' => l ++ [10%N] ++ join_lines ls'
  end.

Definition document (ls : list Line) : jsstring := join_lines (map render ls).

(** The first step of [convertOpalMarkdownToJira]. *)
Definition normalizeCheckboxes (s : jsstring) : jsstring :=
  replace_g checkbox_re checkbox_replacer s.

(** The position is at the start of a line. *)
Definition at_bol (prev : option char16) : bool :=
  match prev with
  | None => true
  | Some c => isLineTerminator c
  end.

(** What follows is the end of the input or a line terminator. *)
Definition at_eol (rest : jsstring) : bool :=
  match rest with
  | [] => true
  | c :: _ => isLineTerminator c
  end.

(** [convertOpalMarkdownToJira] without its last step, the replacement of
    [/\n\n/g] by ['\n\n']. *)
Definition convertOpalMarkdownToJira_without_blank_line_step
    (opalMarkdown : jsstring) : jsstring :=
  let jiraMarkdown := opalMarkdown in
  let jiraMarkdown := replace_g checkbox_re checkbox_replacer jiraMarkdown in
  let jiraMarkdown := replace_g emoji_re emoji_replacer jiraMarkdown in
  jiraMarkdown.

End Checklist.

(** ** Providers and requests used as examples *)

Module Fixtures.

(** A provider without state. *)
Definition st0 : St unit := {| world := tt; calls := []; console := [] |}.

Definition base_url : option jsstring := Some (lit "https://jira.example.com").

(** The user search finds one account. *)
Definition users_found (_ : jsstring) (w : unit)
  : unit * AxiosResult (option (list JiraUser)) :=
  (w, Resolved (Some [ {| accountId := lit "5b10ac8d82e05b22cc7d4ef5";
                          displayName := lit "Assignee" |} ])).

(** The user search answers with an empty list: no matching account. *)
Definition users_none (_ : jsstring) (w : unit)
  : unit * AxiosResult (option (list JiraUser)) :=
  (w, Resolved (Some [])).

(** The user search is rejected with status 404. *)
Definition users_404 (_ : jsstring) (w : unit)
  : unit * AxiosResult (option (list JiraUser)) :=
  (w, Rejected (HasResponse 404 None
                  (lit "Request failed with status code 404"))).

(** The post creates issue DHK-123 with id 10001. *)
Definition created : CreateIssueResponse :=
  {| resp_id := lit "10001";
     resp_key := lit "DHK-123";
     resp_self := lit "https://jira.example.com/rest/api/3/issue/10001" |}.

Definition post_created (_ : CreateIssueRequest) (w : unit)
  : unit * AxiosResult CreateIssueResponse :=
  (w, Resolved created).

(** The post is rejected with the given status and message. *)
Definition failure (status : Z) (msg : jsstring) : AxiosError :=
  HasResponse status
    (Some {| data_message := Some msg; data_errorMessages := None |})
    (lit "Request failed").

Definition post_rejected (e : AxiosError) (_ : CreateIssueRequest) (w : unit)
  : unit * AxiosResult CreateIssueResponse :=
  (w, Rejected e).

Definition request_ok : CreateJiraTicketParams :=
  {| p_summary := Some (lit "  Fix the login page ");
     p_description := Some (lit " Steps to reproduce ") |}.

(** 256 blanks: a summary that breaks rules 1 and 2 at once. *)
Definition request_blank : CreateJiraTicketParams :=
  {| p_summary := Some (repeat (ch " ") 256);
     p_description := None |}.

(** A check-list with a line of notes. *)
Definition shopping : list Checklist.Line :=
  [ Checklist.Item (ch "-") (ch " ") (lit "buy milk");
    Checklist.Plain (lit "Notes:");
    Checklist.Item (ch "*") (ch "x") (lit "call Bob") ].

(** A bare marker followed by a checked item. *)
Definition dangling : list Checklist.Line :=
  [ Checklist.Plain (lit "- [ ]");
    Checklist.Item (ch "-") (ch "x") (lit "b") ].

End Fixtures.

(** ** Shapes of text used by the further properties *)

Module Shapes.

Import Petsmart.

(** No code unit of [s] is [[]: the checkbox expression cannot match. *)
Definition no_bracket (s : jsstring) : bool :=
  forallb (fun c => negb (c =? ch "[")%N) s.

(** No code unit of [s] starts an emoji literal of the source (each of the
    fifteen starts with U+F8FF or U+201A). *)
Definition no_emoji_lead (s : jsstring) : bool :=
  forallb (fun c => negb (c =? 0xf8ff)%N && negb (c =? 0x201a)%N) s.

(** Text the conversion has nothing to do with. *)
Definition plain (s : jsstring) : bool := no_bracket s && no_emoji_lead s.

(** The first code unit of a string is not white space (vacuous when the
    string is empty). *)
Definition starts_clean (s : jsstring) : Prop :=
  match s with
  | [] => True
  | c :: _ => isSpace c = false
  end.

(** A checkbox item in its general form: white space, possibly none and
    possibly with line breaks, before the bullet, between bullet and box,
    and between box and text. *)
Definition loose_item (ws1 : jsstring) (bullet : char16) (ws2 : jsstring)
    (mark : char16) (ws3 text : jsstring) : jsstring :=
  ws1 ++ bullet :: ws2 ++ ch "[" :: mark :: ch "]" :: ws3 ++ text.

(** A matcher that, when it succeeds, ends in its continuation, called on
    a suffix of the input. *)
Definition reaches {R : Type} (m : cont R -> cont R) : Prop :=
  forall k prev s cs x,
    m k prev s cs = Some x ->
    exists p' s' cs' pre, s = pre ++ s' /\ k p' s' cs' = Some x.

End Shapes.

(* ================================================================== *)
(** * Properties *)

(** ** Strings *)

Section StringFacts.

Lemma startsWith_app (p post : jsstring) : startsWith (p ++ post) p = true.
Proof.
  induction p as [|x p IH]; simpl; [reflexivity|].
  now rewrite N.eqb_refl, IH.
Qed.

Lemma startsWith_inv (p : jsstring) :
  forall s, startsWith s p = true -> exists post, s = p ++ post.
Proof.
  induction p as [|x p IH]; intros s H.
  - now exists s.
  - destruct s as [|y s]; simpl in H; [discriminate|].
    apply andb_true_iff in H as [Hxy Hs].
    apply N.eqb_eq in Hxy; subst y.
    destruct (IH _ Hs) as [post ->].
    now exists post.
Qed.

(** [includes] decides [occurs_in]. *)
Lemma includes_occurs (s p : jsstring) :
  includes s p = true <-> occurs_in p s.
Proof.
  split.
  - induction s as [|c s IH]; simpl; intros H.
    + rewrite orb_false_r in H.
      destruct (startsWith_inv _ _ H) as [post Hp].
      now exists [], post.
    + apply orb_true_iff in H as [H|H].
      * destruct (startsWith_inv _ _ H) as [post Hp].
        now exists [], post.
      * destruct (IH H) as (pre & post & ->).
        now exists (c :: pre), post.
  - intros (pre & post & ->).
    induction pre as [|c pre IH]; simpl.
    + destruct (p ++ post) eqn:E; simpl.
      * destruct p; [reflexivity | discriminate].
      * rewrite <- E, startsWith_app. reflexivity.
    + rewrite IH. apply orb_true_r.
Qed.

Lemma not_occurs (s p : jsstring) :
  includes s p = false -> ~ occurs_in p s.
Proof.
  intros H Hocc. apply includes_occurs in Hocc. congruence.
Qed.

Lemma occurs_in_suffix (x pre : jsstring) : occurs_in x (pre ++ x).
Proof. exists pre, []. now rewrite app_nil_r. Qed.

Lemma occurs_in_app_r (x a b : jsstring) :
  occurs_in x b -> occurs_in x (a ++ b).
Proof.
  intros (pre & post & ->). exists (a ++ pre), post.
  now rewrite <- app_assoc.
Qed.

Lemma occurs_in_app_l (x a b : jsstring) :
  occurs_in x a -> occurs_in x (a ++ b).
Proof.
  intros (pre & post & ->). exists pre, (post ++ b).
  now rewrite <- !app_assoc.
Qed.

End StringFacts.

(** ** The scan of [replace] *)

Section ReplaceFacts.

Variable r : regex.
Variable f : jsstring -> caps -> jsstring.

Lemma replace_loop_skip n prev c t :
  replace_loop r f (S n) prev (c :: t) = replace_loop r f n (Some c) t.
Proof. reflexivity. Qed.

Lemma replace_loop_miss prev c t :
  match_here r prev (c :: t) = None ->
  replace_loop r f 0 prev (c :: t) = c :: replace_loop r f 0 (Some c) t.
Proof. intros H. simpl. now rewrite H. Qed.

Lemma replace_loop_miss_nil prev :
  match_here r prev [] = None -> replace_loop r f 0 prev [] = [].
Proof. intros H. simpl. now rewrite H. Qed.

Lemma replace_loop_hit prev c t s' cs n :
  match_here r prev (c :: t) = Some (s', cs) ->
  length (c :: t) - length s' = S n ->
  replace_loop r f 0 prev (c :: t) =
  f (firstn (S n) (c :: t)) cs ++ replace_loop r f n (Some c) t.
Proof.
  intros H Hn. cbn [replace_loop]. rewrite H.
  cbv zeta. rewrite Hn. reflexivity.
Qed.

Lemma prev_after_cons prev c a :
  prev_after prev (c :: a) = prev_after (Some c) a.
Proof.
  unfold prev_after. simpl.
  destruct (rev a) as [|x l] eqn:E; simpl; reflexivity.
Qed.

(** Stepping over the rest of a match. *)
Lemma replace_loop_skip_app (a : jsstring) :
  forall prev rest,
    replace_loop r f (length a) prev (a ++ rest) =
    replace_loop r f 0 (prev_after prev a) rest.
Proof.
  induction a as [|c a IH]; intros prev rest.
  - reflexivity.
  - simpl length. simpl app. rewrite replace_loop_skip, IH.
    now rewrite prev_after_cons.
Qed.

(** A replacer that gives back the matched text changes nothing. *)
Lemma replace_loop_identity :
  (forall prev s s' cs,
      match_here r prev s = Some (s', cs) ->
      f (firstn (length s - length s') s) cs
      = firstn (length s - length s') s) ->
  forall s skip prev, replace_loop r f skip prev s = skipn skip s.
Proof.
  intros Hf. induction s as [|c t IH]; intros skip prev.
  - destruct skip; [|reflexivity].
    cbn [replace_loop].
    destruct (match_here r prev []) as [[s' cs]|] eqn:E; [|reflexivity].
    cbv zeta. rewrite (Hf _ _ _ _ E). simpl. reflexivity.
  - destruct skip as [|n].
    + cbn [replace_loop].
      destruct (match_here r prev (c :: t)) as [[s' cs]|] eqn:E.
      * cbv zeta. rewrite (Hf _ _ _ _ E).
        destruct (length (c :: t) - length s') as [|n].
        -- simpl. now rewrite IH.
        -- rewrite IH. simpl. now rewrite firstn_skipn.
      * now rewrite IH.
    + rewrite replace_loop_skip, IH. reflexivity.
Qed.

(** A replacer that never turns a non-empty match into the empty string
    never empties a non-empty input. *)
Lemma replace_g_nonempty :
  (forall m cs, f m cs = [] -> m = []) ->
  forall s, replace_g r f s = [] -> s = [].
Proof.
  intros Hf [|c t]; [reflexivity|].
  unfold replace_g. cbn [replace_loop].
  destruct (match_here r None (c :: t)) as [[s' cs]|]; [|discriminate].
  cbv zeta.
  destruct (length (c :: t) - length s') as [|n]; intros H.
  - apply app_eq_nil in H as [_ H]. discriminate.
  - apply app_eq_nil in H as [H _]. apply Hf in H. discriminate.
Qed.

End ReplaceFacts.

(** ** The matcher on character classes *)

Section ClassFacts.

Variable R : Type.
Variable p : char16 -> bool.

Lemma star_loop_S (m : cont R -> cont R) (k : cont R) fuel prev s cs :
  star_loop m k (S fuel) prev s cs =
  match m (fun p' s' c' =>
             if Nat.ltb (length s') (length s)
             then star_loop m k fuel p' s' c'
             else None) prev s cs with
  | Some x => Some x
  | None => k prev s cs
  end.
Proof. reflexivity. Qed.

Lemma rmatch_Cls_cons (k : cont R) prev c s cs :
  rmatch (Cls p) k prev (c :: s) cs =
  if p c then k (Some c) s cs else None.
Proof. reflexivity. Qed.

(** [p*] stops where [p] fails. *)
Lemma star_class_stop (k : cont R) fuel prev s cs :
  match s with [] => True | c :: _ => p c = false end ->
  star_loop (rmatch (Cls p)) k fuel prev s cs = k prev s cs.
Proof.
  intros H. destruct fuel; [reflexivity|].
  rewrite star_loop_S.
  destruct s as [|c s]; [reflexivity|].
  rewrite rmatch_Cls_cons, H. reflexivity.
Qed.

(** [p*] is greedy: over a run [t] of code units in [p], followed by one
    that is not, it reaches the end of [t] first, and a continuation that
    succeeds there decides the match. *)
Lemma star_class_greedy (k : cont R) (t : jsstring) :
  forall rest fuel prev cs x,
    forallb p t = true ->
    match rest with [] => True | c :: _ => p c = false end ->
    length t <= fuel ->
    k (prev_after prev t) rest cs = Some x ->
    star_loop (rmatch (Cls p)) k fuel prev (t ++ rest) cs = Some x.
Proof.
  induction t as [|c t IH]; intros rest fuel prev cs x Ht Hrest Hfuel Hk.
  - simpl app. rewrite star_class_stop by assumption. exact Hk.
  - simpl in Ht. apply andb_true_iff in Ht as [Hc Ht].
    destruct fuel as [|fuel]; [simpl in Hfuel; lia|].
    simpl app. rewrite star_loop_S, rmatch_Cls_cons, Hc.
    assert (Hlt : Nat.ltb (length (t ++ rest)) (length (c :: t ++ rest)) = true)
      by (apply Nat.ltb_lt; simpl; lia).
    rewrite Hlt.
    rewrite (IH rest fuel (Some c) cs x); try assumption.
    + reflexivity.
    + simpl in Hfuel. lia.
    + now rewrite <- (prev_after_cons prev c t).
Qed.

Lemma firstn_length_app (a b : jsstring) :
  firstn (length (a ++ b) - length b) (a ++ b) = a.
Proof.
  rewrite length_app.
  replace (length a + length b - length b) with (length a) by lia.
  rewrite firstn_app, Nat.sub_diag, firstn_all. simpl.
  apply app_nil_r.
Qed.

Lemma firstn_length_cons (c : char16) (b : jsstring) :
  firstn (length (c :: b) - length b) (c :: b) = [c].
Proof. exact (firstn_length_app [c] b). Qed.

Lemma firstn_length_cons_app (c : char16) (a b : jsstring) :
  firstn (length (c :: a ++ b) - length b) (c :: a ++ b) = c :: a.
Proof. exact (firstn_length_app (c :: a) b). Qed.

Lemma firstn_length_cons_app_n (c : char16) (a b : jsstring) :
  firstn (S (length a)) (c :: a ++ b) = c :: a.
Proof.
  simpl. f_equal. rewrite firstn_app, Nat.sub_diag, firstn_all. simpl.
  apply app_nil_r.
Qed.

End ClassFacts.

(** Unfolding equations of the matcher, used to step through a regular
    expression one node at a time. *)
Section MatcherEquations.

Variable R : Type.
Implicit Types (k : cont R) (r : regex).

Lemma rmatch_Seq r1 r2 k prev s cs :
  rmatch (Seq r1 r2) k prev s cs = rmatch r1 (rmatch r2 k) prev s cs.
Proof. reflexivity. Qed.

Lemma rmatch_Chr_cons c k prev s cs :
  rmatch (Chr c) k prev (c :: s) cs = k (Some c) s cs.
Proof. simpl. now rewrite N.eqb_refl. Qed.

Lemma rmatch_Star r k prev s cs :
  rmatch (Star r) k prev s cs = star_loop (rmatch r) k (length s) prev s cs.
Proof. reflexivity. Qed.

Lemma rmatch_Plus r k prev s cs :
  rmatch (Plus r) k prev s cs =
  rmatch r (fun p' s' c' => star_loop (rmatch r) k (length s') p' s' c')
         prev s cs.
Proof. reflexivity. Qed.

Lemma rmatch_Grp n r k prev s cs :
  rmatch (Grp n r) k prev s cs =
  rmatch r (fun p' s' c' =>
              k p' s' ((n, firstn (length s - length s') s) :: c'))
         prev s cs.
Proof. reflexivity. Qed.

Lemma rmatch_BolM k prev s cs :
  rmatch BolM k prev s cs =
  match prev with
  | None => k prev s cs
  | Some c => if isLineTerminator c then k prev s cs else None
  end.
Proof. reflexivity. Qed.

Lemma rmatch_EolM k prev s cs :
  rmatch EolM k prev s cs =
  match s with
  | [] => k prev s cs
  | c :: _ => if isLineTerminator c then k prev s cs else None
  end.
Proof. reflexivity. Qed.

End MatcherEquations.

(* ================================================================== *)
(** ** The checkbox normalization on a check-list *)

Module ChecklistFacts.

Import Petsmart Checklist.

Lemma rmatch_BolM_at_bol R (k : cont R) prev s cs :
  at_bol prev = true -> rmatch BolM k prev s cs = k prev s cs.
Proof.
  intros H. rewrite rmatch_BolM.
  destruct prev as [q|]; simpl in H; [rewrite H|]; reflexivity.
Qed.

Lemma checkbox_not_at_bol p s :
  isLineTerminator p = false -> match_here checkbox_re (Some p) s = None.
Proof.
  intros H. unfold match_here, checkbox_re.
  rewrite rmatch_Seq, rmatch_BolM, H. reflexivity.
Qed.

Lemma checkbox_plain_start prev c s :
  isSpace c = false -> isDashOrStar c = false ->
  match_here checkbox_re prev (c :: s) = None.
Proof.
  intros Hs Hd. unfold match_here, checkbox_re.
  rewrite rmatch_Seq, rmatch_BolM.
  assert (E : rmatch
    (Seq (Star (Cls isSpace))
       (Seq (Cls isDashOrStar)
          (Seq (Star (Cls isSpace))
             (Seq (Chr (ch "["))
                (Seq (Grp 1 (Cls isBlankOrX))
                   (Seq (Chr (ch "]"))
                      (Seq (Star (Cls isSpace))
                         (Seq (Grp 2 (Plus (Cls isDot))) EolM))))))))
    (fun _ s' cs => Some (s', cs)) prev (c :: s) [] = None).
  { rewrite rmatch_Seq, rmatch_Star, star_class_stop by exact Hs.
    rewrite rmatch_Seq, rmatch_Cls_cons, Hd. reflexivity. }
  rewrite E. destruct prev as [q|]; [destruct (isLineTerminator q)|]; reflexivity.
Qed.

(** The match of the expression on a checkbox item at the start of a line:
    it ends with the line, and group 2 is the text. *)
Lemma checkbox_item_match prev b m t rest :
  at_bol prev = true ->
  line_ok (Item b m t) = true ->
  at_eol rest = true ->
  match_here checkbox_re prev (render (Item b m t) ++ rest)
  = Some (rest, [(2, t); (1, [m])]).
Proof.
  intros Hbol Hok Heol.
  simpl in Hok.
  apply andb_true_iff in Hok as [Hok Ht].
  apply andb_true_iff in Hok as [Hb Hm].
  destruct t as [|c t]; [discriminate|].
  simpl in Ht. apply andb_true_iff in Ht as [Hc Ht].
  apply negb_true_iff in Hc.
  apply andb_true_iff in Ht as [Hcd Ht].
  assert (Hbs : isSpace b = false).
  { apply orb_true_iff in Hb as [Hb|Hb]; apply N.eqb_eq in Hb; subst b;
      reflexivity. }
  unfold match_here, checkbox_re, render. simpl app.
  rewrite rmatch_Seq, rmatch_BolM_at_bol by exact Hbol.
  rewrite rmatch_Seq, rmatch_Star, star_class_stop by exact Hbs.
  rewrite rmatch_Seq, rmatch_Cls_cons, Hb.
  rewrite rmatch_Seq, rmatch_Star.
  apply (star_class_greedy isSpace _ [ch " "]); try reflexivity.
  { simpl. lia. }
  unfold prev_after. simpl rev.
  rewrite rmatch_Seq, rmatch_Chr_cons.
  rewrite rmatch_Seq, rmatch_Grp, rmatch_Cls_cons, Hm.
  rewrite firstn_length_cons.
  rewrite rmatch_Seq, rmatch_Chr_cons.
  rewrite rmatch_Seq, rmatch_Star.
  apply (star_class_greedy isSpace _ [ch " "]); try reflexivity.
  { exact Hc. }
  { simpl. lia. }
  unfold prev_after. simpl rev.
  rewrite rmatch_Seq, rmatch_Grp, rmatch_Plus, rmatch_Cls_cons, Hcd.
  apply (star_class_greedy isDot _ t); try assumption.
  { destruct rest as [|x rest]; [exact I|].
    simpl in Heol. unfold isDot. now rewrite Heol. }
  { rewrite length_app. lia. }
  rewrite firstn_length_cons_app.
  rewrite rmatch_EolM.
  destruct rest as [|x rest]; [reflexivity|].
  simpl in Heol. rewrite Heol. reflexivity.
Qed.

Lemma checkbox_nil prev : match_here checkbox_re prev [] = None.
Proof.
  unfold match_here, checkbox_re. rewrite rmatch_Seq, rmatch_BolM.
  destruct prev as [q|]; [destruct (isLineTerminator q)|]; reflexivity.
Qed.

Lemma prev_after_app_nonempty prev (a t : jsstring) :
  t <> [] -> prev_after prev (a ++ t) = prev_after None t.
Proof.
  intros Ht. unfold prev_after. rewrite rev_app_distr.
  destruct (rev t) as [|x l] eqn:E; [|reflexivity].
  apply (f_equal (@rev _)) in E. rewrite rev_involutive in E. contradiction.
Qed.

(** The last code unit of a line's text is not a line terminator. *)
Lemma prev_after_text (t : jsstring) :
  t <> [] -> forallb isDot t = true ->
  exists p, prev_after None t = Some p /\ isLineTerminator p = false.
Proof.
  intros Ht Hd. unfold prev_after.
  destruct (rev t) as [|x l] eqn:E.
  - apply (f_equal (@rev _)) in E. rewrite rev_involutive in E. contradiction.
  - exists x. split; [reflexivity|].
    apply (f_equal (@rev _)) in E. rewrite rev_involutive in E. subst t.
    simpl in Hd. rewrite forallb_app in Hd.
    apply andb_true_iff in Hd as [_ Hd]. simpl in Hd.
    rewrite andb_true_r in Hd. now apply negb_true_iff in Hd.
Qed.

Lemma text_ok_inv t :
  text_ok t = true ->
  exists c t', t = c :: t' /\ isSpace c = false /\ forallb isDot t = true.
Proof.
  destruct t as [|c t']; [discriminate|]. intros H.
  unfold text_ok in H. apply andb_true_iff in H as [Hc Hd].
  apply negb_true_iff in Hc. now exists c, t'.
Qed.

Local Abbreviation scan := (replace_loop checkbox_re checkbox_replacer 0).

(** Inside a line the expression cannot match: [^] fails. *)
Lemma scan_inside (t : jsstring) :
  forall p rest,
    isLineTerminator p = false -> forallb isDot t = true ->
    scan (Some p) (t ++ rest) = t ++ scan (prev_after (Some p) t) rest.
Proof.
  induction t as [|c t IH]; intros p rest Hp Ht; [reflexivity|].
  simpl in Ht. apply andb_true_iff in Ht as [Hc Ht].
  simpl app. rewrite replace_loop_miss by now apply checkbox_not_at_bol.
  rewrite IH; [|now apply negb_true_iff in Hc|assumption].
  now rewrite <- (prev_after_cons (Some p) c t).
Qed.

(** The scan of one well-formed line at the start of a line: the line is
    rewritten and the scan resumes right after it, inside the line. *)
Lemma scan_line prev l rest :
  at_bol prev = true -> line_ok l = true -> at_eol rest = true ->
  exists p, isLineTerminator p = false /\
    scan prev (render l ++ rest) = rewritten l ++ scan (Some p) rest.
Proof.
  intros Hbol Hok Heol. destruct l as [b m t|t].
  - pose proof (checkbox_item_match prev b m t rest Hbol Hok Heol) as Hm.
    simpl in Hok. apply andb_true_iff in Hok as [_ Ht].
    destruct (text_ok_inv _ Ht) as (c & t' & -> & Hc & Hd).
    destruct (prev_after_text (t := c :: t')) as (p & Hp & Hlt);
      [discriminate|assumption|].
    exists p. split; [assumption|].
    unfold render in *. simpl app in *.
    rewrite replace_loop_hit
      with (s' := rest) (cs := [(2, c :: t'); (1, [m])])
           (n := length ([ch " "; ch "["; m; ch "]"; ch " "] ++ c :: t')).
    + change (b :: 32%N :: 91%N :: m :: 93%N :: 32%N :: c :: t' ++ rest)
        with (b :: ([ch " "; ch "["; m; ch "]"; ch " "] ++ c :: t') ++ rest).
      rewrite firstn_length_cons_app_n.
      change (32%N :: 91%N :: m :: 93%N :: 32%N :: c :: t' ++ rest)
        with (([ch " "; ch "["; m; ch "]"; ch " "] ++ c :: t') ++ rest).
      rewrite replace_loop_skip_app.
      rewrite prev_after_app_nonempty by discriminate.
      rewrite Hp. reflexivity.
    + exact Hm.
    + change (b :: 32%N :: 91%N :: m :: 93%N :: 32%N :: c :: t' ++ rest)
        with ((b :: [ch " "; ch "["; m; ch "]"; ch " "] ++ c :: t') ++ rest).
      rewrite length_app. simpl length. lia.
  - simpl in Hok. apply andb_true_iff in Hok as [Ht Hd].
    destruct (text_ok_inv _ Ht) as (c & t' & -> & Hc & Hdot).
    apply negb_true_iff in Hd.
    destruct (prev_after_text (t := c :: t')) as (p & Hp & Hlt);
      [discriminate|assumption|].
    exists p. split; [assumption|].
    simpl render. simpl rewritten. simpl app.
    rewrite replace_loop_miss by now apply checkbox_plain_start.
    simpl in Hdot. apply andb_true_iff in Hdot as [Hcd Hdot].
    rewrite scan_inside; [|now apply negb_true_iff in Hcd|assumption].
    rewrite <- (prev_after_cons None c t'), Hp. reflexivity.
Qed.

(** On a document of well-formed lines the scan rewrites every line. *)
Lemma scan_document (ls : list Line) :
  forall prev,
    at_bol prev = true -> forallb line_ok ls = true ->
    scan prev (document ls) = join_lines (map rewritten ls).
Proof.
  induction ls as [|l ls IH]; intros prev Hbol Hok.
  - apply replace_loop_miss_nil, checkbox_nil.
  - simpl in Hok. apply andb_true_iff in Hok as [Hl Hls].
    destruct ls as [|l2 ls].
    + unfold document. simpl map. simpl join_lines.
      destruct (scan_line prev l [] Hbol Hl eq_refl) as (p & Hp & E).
      rewrite app_nil_r in E. rewrite E.
      rewrite replace_loop_miss_nil by now apply checkbox_not_at_bol.
      apply app_nil_r.
    + change (document (l :: l2 :: ls))
        with (render l ++ 10%N :: document (l2 :: ls)).
      change (join_lines (map rewritten (l :: l2 :: ls)))
        with (rewritten l ++ 10%N :: join_lines (map rewritten (l2 :: ls))).
      destruct (scan_line prev l (10%N :: document (l2 :: ls)) Hbol Hl eq_refl)
        as (p & Hp & E).
      rewrite E.
      rewrite replace_loop_miss by now apply checkbox_not_at_bol.
      rewrite IH; [reflexivity|reflexivity|assumption].
Qed.

End ChecklistFacts.

(* ================================================================== *)
(** ** The client *)

Section ClientFacts.

Import Requests.

Variable World : Type.
Variable http_get_users :
  jsstring -> World -> World * AxiosResult (option (list JiraUser)).
Variable http_post_issue :
  CreateIssueRequest -> World -> World * AxiosResult CreateIssueResponse.

Lemma interceptor_JiraClientError (e : AxiosError) :
  exists msg status, interceptor e = JiraClientError msg status.
Proof. destruct e; simpl; eauto. Qed.

Lemma lookup_fails_no_account (r : AxiosResult (option (list JiraUser))) :
  lookup_fails r = true -> resolved_account r = None.
Proof. destruct r as [[[|u us]|]|e]; simpl; congruence. Qed.

(** [getUserByEmail] on a well-formed email: one user search; it returns the
    first user or throws a [JiraClientError]. *)
Lemma getUserByEmail_run email st w1 r1 :
  isWellFormed email = true ->
  http_get_users email (world st) = (w1, r1) ->
  exists res,
    getUserByEmail http_get_users email st
    = ({| world := w1; calls := calls st ++ [GetUserSearch email];
          console := console st |}, res) /\
    match res with
    | inl u => lookup_fails r1 = false /\ resolved_account r1 = Some (accountId u)
    | inr e => lookup_fails r1 = true /\ exists m c, e = JiraClientError m c
    end.
Proof.
  intros Hwf Hget.
  unfold getUserByEmail, try_catch, bind, client_get_users.
  rewrite Hwf, Hget.
  destruct r1 as [[[|u us]|]|e]; simpl.
  - eexists; split; [reflexivity|]. simpl. eauto.
  - eexists; split; [reflexivity|]. simpl. eauto.
  - eexists; split; [reflexivity|]. simpl. eauto.
  - destruct (interceptor_JiraClientError e) as (m & c & ->). simpl.
    eexists; split; [reflexivity|]. simpl. eauto.
Qed.

(** [createIssueWithText] with an assignee email: one user search, then one
    post of the body, whatever the search gave. *)
Lemma createIssueWithText_run key type summ desc email st w1 r1 w2 r2 :
  truthy email = true ->
  isWellFormed email = true ->
  http_get_users email (world st) = (w1, r1) ->
  http_post_issue
    (issue_body key type summ desc (resolved_account r1)) w1 = (w2, r2) ->
  createIssueWithText http_get_users http_post_issue key type summ desc
                      (Some email) st
  = ({| world := w2;
        calls := calls st ++
                 [GetUserSearch email;
                  PostIssue (issue_body key type summ desc
                                        (resolved_account r1))];
        console := console st ++ lookup_warning email r1 |},
     match r2 with
     | Resolved d => inl d
     | Rejected e => inr (interceptor e)
     end).
Proof.
  intros Hemail Hwf Hget Hpost.
  destruct (@getUserByEmail_run email st w1 r1 Hwf Hget)
    as (res & Hrun & Hres).
  unfold createIssueWithText. rewrite Hemail.
  unfold bind at 1. unfold try_catch at 1. unfold bind at 1.
  rewrite Hrun.
  assert (Hbody :
    (if truthy_opt desc
     then {| project_key := key; summary := summ;
             description := option_map createDescriptionADF desc;
             issuetype_name := type; assignee_accountId := None |}
     else {| project_key := key; summary := summ; description := None;
             issuetype_name := type; assignee_accountId := None |})
    = issue_body key type summ desc None).
  { unfold issue_body. destruct desc as [d|]; simpl; [|reflexivity].
    destruct (truthy d); reflexivity. }
  simpl JiraClientModel.summary. simpl project_key. simpl issuetype_name.
  simpl JiraClientModel.description. simpl assignee_accountId.
  destruct res as [u|e].
  - destruct Hres as [Hf Hacc].
    unfold ret. unfold createIssue, try_catch, client_post_issue.
    cbn [world calls console].
    replace {| project_key := _; summary := _; description := _;
               issuetype_name := _; assignee_accountId := Some (accountId u) |}
      with (issue_body key type summ desc (resolved_account r1)).
    2:{ rewrite Hacc. unfold issue_body. destruct desc as [d|]; simpl;
          [destruct (truthy d)|]; reflexivity. }
    rewrite Hpost. unfold lookup_warning. rewrite Hf.
    rewrite app_nil_r, <- app_assoc. simpl app.
    destruct r2 as [d|e]; [reflexivity|].
    destruct (interceptor_JiraClientError e) as (m & c & ->). reflexivity.
  - destruct Hres as [Hf (m & c & ->)].
    assert (Hacc : resolved_account r1 = None).
    { destruct r1 as [[[|u us]|]|e]; simpl in *; congruence. }
    unfold console_warn, bind, ret. cbn [world calls console].
    unfold createIssue, try_catch, client_post_issue.
    cbn [world calls console].
    rewrite Hbody. rewrite Hacc in Hpost. rewrite Hpost.
    unfold lookup_warning. rewrite Hf, Hacc, <- app_assoc. simpl app.
    destruct r2 as [d|e]; [reflexivity|].
    destruct (interceptor_JiraClientError e) as (m' & c' & ->). reflexivity.
Qed.

End ClientFacts.

(* ================================================================== *)
(** ** Validation and the run of a valid request *)

Section RequestFacts.

Import Requests.

Lemma summary_guard (p : CreateJiraTicketParams) s :
  p_summary p = Some s ->
  negb (truthy s) || Nat.eqb (length (trim s)) 0 = summary_required p.
Proof.
  intros H. unfold summary_required. rewrite H.
  destruct s; reflexivity.
Qed.

Lemma description_guard (p : CreateJiraTicketParams) :
  truthy_opt (p_description p) &&
  match p_description p with
  | Some d => (32767 <? N.of_nat (length d))%N
  | None => false
  end = description_too_long p.
Proof.
  unfold description_too_long.
  destruct (p_description p) as [[|c d]|]; reflexivity.
Qed.

Lemma valid_inv (p : CreateJiraTicketParams) :
  valid p = true ->
  exists s, p_summary p = Some s /\ summary_required p = false /\
            summary_too_long p = false /\ description_too_long p = false.
Proof.
  unfold valid. intros H.
  apply andb_true_iff in H as [H H3]. apply andb_true_iff in H as [H1 H2].
  apply negb_true_iff in H1, H2, H3.
  destruct (p_summary p) as [s|] eqn:E.
  - eauto.
  - unfold summary_required in H1. rewrite E in H1. discriminate.
Qed.

Variable World : Type.
Variable http_get_users :
  jsstring -> World -> World * AxiosResult (option (list JiraUser)).
Variable http_post_issue :
  CreateIssueRequest -> World -> World * AxiosResult CreateIssueResponse.
Variable env_JIRA_BASE_URL : option jsstring.

(** A request that breaks a rule throws before anything else happens: the
    state, and with it the log of calls, is the one it started from. *)
Lemma Dex_rejects p v (st : St World) :
  first_violation p v ->
  Dex.createJiraTicket http_get_users http_post_issue env_JIRA_BASE_URL p st
  = (st, inr (newError (violation_message v))).
Proof.
  intros Hv. unfold Dex.createJiraTicket.
  destruct (p_summary p) as [s|] eqn:Es.
  - rewrite (summary_guard p Es), description_guard.
    change (255 <? N.of_nat (length s))%N with
      (match Some s with Some s => (255 <? N.of_nat (length s))%N
                    | None => false end).
    rewrite <- Es. fold (summary_too_long p).
    destruct v; simpl in Hv.
    + rewrite Hv. reflexivity.
    + destruct Hv as [-> ->]. reflexivity.
    + destruct Hv as (-> & -> & ->). reflexivity.
  - destruct v; simpl in Hv; unfold summary_required in Hv;
      rewrite Es in Hv; [reflexivity | | ]; destruct Hv; discriminate.
Qed.

Lemma Petsmart_rejects p v (st : St World) :
  first_violation p v ->
  Petsmart.createJiraTicket http_get_users http_post_issue env_JIRA_BASE_URL
                            p st
  = (st, inr (newError (violation_message v))).
Proof.
  intros Hv. unfold Petsmart.createJiraTicket.
  destruct (p_summary p) as [s|] eqn:Es.
  - rewrite (summary_guard p Es), description_guard.
    change (255 <? N.of_nat (length s))%N with
      (match Some s with Some s => (255 <? N.of_nat (length s))%N
                    | None => false end).
    rewrite <- Es. fold (summary_too_long p).
    destruct v; simpl in Hv.
    + rewrite Hv. reflexivity.
    + destruct Hv as [-> ->]. reflexivity.
    + destruct Hv as (-> & -> & ->). reflexivity.
  - destruct v; simpl in Hv; unfold summary_required in Hv;
      rewrite Es in Hv; [reflexivity | | ]; destruct Hv; discriminate.
Qed.

(** The run of a valid request, DEX deployment: the user search, the post
    of the body, and the result made of the provider's answer. *)
Lemma Dex_run p (st : St World) w1 r1 w2 r2 :
  valid p = true ->
  http_get_users Dex.ALEX_WALD_EMAIL (world st) = (w1, r1) ->
  http_post_issue (dex_body p r1) w1 = (w2, r2) ->
  Dex.createJiraTicket http_get_users http_post_issue env_JIRA_BASE_URL p st
  = (after_calls st w2 Dex.ALEX_WALD_EMAIL r1 (dex_body p r1),
     match r2 with
     | Resolved result =>
         inl {| success := true;
                ticketKey := resp_key result;
                ticketUrl :=
                  or_str env_JIRA_BASE_URL [] ++ lit "/browse/" ++
                  resp_key result;
                ticketId := resp_id result;
                message :=
                  lit "Successfully created JIRA ticket " ++
                  resp_key result ++
                  lit " in DEX project. The ticket has been assigned to Alex Wald and can be viewed at " ++
                  or_str env_JIRA_BASE_URL [] ++ lit "/browse/" ++
                  resp_key result |}
     | Rejected e =>
         inr (newError
                match interceptor e with
                | JiraClientError msg status => Dex.classify status msg
                | OtherThrown m _ =>
                    lit "Unexpected error creating JIRA ticket: " ++
                    message_or_unknown m
                end)
     end).
Proof.
  intros Hvalid Hget Hpost.
  destruct (valid_inv p Hvalid) as (s & Es & H1 & H2 & H3).
  unfold Dex.createJiraTicket.
  rewrite Es, (summary_guard p Es), description_guard, H1, H3.
  unfold summary_too_long in H2. rewrite Es in H2. rewrite H2.
  unfold dex_body, summary_of in *. rewrite Es in *.
  unfold try_catch, bind.
  erewrite createIssueWithText_run;
    [|reflexivity|reflexivity|exact Hget|exact Hpost].
  destruct r2 as [d|e]; [reflexivity|].
  destruct (interceptor e); reflexivity.
Qed.

Lemma Petsmart_run p (st : St World) w1 r1 w2 r2 :
  valid p = true ->
  http_get_users Petsmart.PETSMART_ASSIGNEE_EMAIL (world st) = (w1, r1) ->
  http_post_issue (petsmart_body p r1) w1 = (w2, r2) ->
  Petsmart.createJiraTicket http_get_users http_post_issue env_JIRA_BASE_URL
                            p st
  = (after_calls st w2 Petsmart.PETSMART_ASSIGNEE_EMAIL r1
                 (petsmart_body p r1),
     match r2 with
     | Resolved result =>
         inl {| success := true;
                ticketKey := resp_key result;
                ticketUrl :=
                  or_str env_JIRA_BASE_URL [] ++ lit "/browse/" ++
                  resp_key result;
                ticketId := resp_id result;
                message :=
                  lit "Successfully created JIRA ticket " ++
                  resp_key result ++
                  lit " in Petsmart DTO project. Attempted to assign to oruhland@petsmart.com. Check the ticket to verify assignment. View at " ++
                  or_str env_JIRA_BASE_URL [] ++ lit "/browse/" ++
                  resp_key result |}
     | Rejected e =>
         inr (newError
                match interceptor e with
                | JiraClientError msg status => Petsmart.classify status msg
                | OtherThrown m _ =>
                    lit "Unexpected error creating JIRA ticket: " ++
                    message_or_unknown m
                end)
     end).
Proof.
  intros Hvalid Hget Hpost.
  destruct (valid_inv p Hvalid) as (s & Es & H1 & H2 & H3).
  unfold Petsmart.createJiraTicket.
  rewrite Es, (summary_guard p Es), description_guard, H1, H3.
  unfold summary_too_long in H2. rewrite Es in H2. rewrite H2.
  unfold petsmart_body, summary_of in *. rewrite Es in *.
  unfold try_catch, bind.
  erewrite createIssueWithText_run;
    [|reflexivity|reflexivity|exact Hget|exact Hpost].
  destruct r2 as [d|e]; [reflexivity|].
  destruct (interceptor e); reflexivity.
Qed.

End RequestFacts.

(* ================================================================== *)
(** ** The markdown conversion *)

Section ConversionFacts.

Import Petsmart Checklist.

(** A match of [/\n\n/] is the text it is replaced with. *)
Lemma blank_line_match prev s s' cs :
  match_here blank_line_re prev s = Some (s', cs) ->
  blank_line_replacer (firstn (length s - length s') s) cs
  = firstn (length s - length s') s.
Proof.
  unfold match_here, blank_line_re, blank_line_replacer.
  destruct s as [|x [|y s]]; simpl; try discriminate.
  - destruct (x =? 10)%N; discriminate.
  - destruct (x =? 10)%N eqn:Ex; [|discriminate].
    destruct (y =? 10)%N eqn:Ey; [|discriminate].
    intros H. injection H as <- _.
    apply N.eqb_eq in Ex, Ey. subst x y.
    symmetry. exact (firstn_length_app [10%N; 10%N] s).
Qed.

Lemma blank_line_step_identity (s : jsstring) :
  replace_g blank_line_re blank_line_replacer s = s.
Proof.
  unfold replace_g.
  rewrite replace_loop_identity by exact blank_line_match.
  reflexivity.
Qed.

Lemma checkbox_replacer_nonempty m cs : checkbox_replacer m cs = [] -> m = [].
Proof. discriminate. Qed.

Lemma emoji_replacer_nonempty m cs : emoji_replacer m cs = [] -> m = [].
Proof.
  unfold emoji_replacer, or_str.
  destruct (lookup emojiMap m) as [[|c v]|]; simpl; try tauto.
  discriminate.
Qed.

Lemma blank_line_replacer_nonempty m cs :
  blank_line_replacer m cs = [] -> m = [].
Proof. discriminate. Qed.

(** The conversion never empties a non-empty text. *)
Lemma convertOpalMarkdownToJira_nonempty (s : jsstring) :
  convertOpalMarkdownToJira s = [] -> s = [].
Proof.
  unfold convertOpalMarkdownToJira. intros H.
  apply (@replace_g_nonempty _ _ blank_line_replacer_nonempty) in H.
  apply (@replace_g_nonempty _ _ emoji_replacer_nonempty) in H.
  apply (@replace_g_nonempty _ _ checkbox_replacer_nonempty) in H.
  exact H.
Qed.

End ConversionFacts.

(* ================================================================== *)
(** ** The classifier *)

Section ClassifierFacts.

Import Requests.

Lemma occurs_in_lit_l (k a b : jsstring) :
  includes a k = true -> occurs_in k (a ++ b).
Proof. intros H. apply occurs_in_app_l. now apply includes_occurs. Qed.

Lemma occurs_in_mid (k a b : jsstring) : occurs_in k (a ++ k ++ b).
Proof. now exists a, b. Qed.

Lemma Z_eqb_eq_subst (status k : Z) : (status =? k)%Z = true -> status = k.
Proof. apply Z.eqb_eq. Qed.

(** Every diagnosis ends with the technical detail and holds its theme
    keyword; those of 400, 403 and 404 hold the project key. *)
Lemma Dex_classify_contains (status : Z) (X : jsstring) :
  diagnosed status = true ->
  occurs_in (theme_keyword status) (Dex.classify status X) /\
  occurs_in X (Dex.classify status X) /\
  (names_project_key status = true ->
   occurs_in Dex.DEX_PROJECT_KEY (Dex.classify status X)).
Proof.
  intros Hd. unfold diagnosed in Hd.
  repeat (apply orb_true_iff in Hd as [Hd|Hd]);
    apply Z_eqb_eq_subst in Hd; subst status;
    unfold Dex.classify, theme_keyword; cbn [Z.eqb Pos.eqb];
    (split; [| split]).
  all: try (intros Hn; vm_compute in Hn; discriminate Hn).
  all: try (intros _; apply occurs_in_mid).
  all: try (rewrite ?app_assoc; apply occurs_in_suffix).
  all: try (apply occurs_in_lit_l; vm_compute; reflexivity).
  apply occurs_in_app_r, occurs_in_app_r, occurs_in_lit_l.
  vm_compute; reflexivity.
Qed.

Lemma Petsmart_classify_contains (status : Z) (X : jsstring) :
  diagnosed status = true ->
  occurs_in (theme_keyword status) (Petsmart.classify status X) /\
  occurs_in X (Petsmart.classify status X) /\
  (names_project_key status = true ->
   occurs_in Petsmart.PETSMART_PROJECT_KEY (Petsmart.classify status X)).
Proof.
  intros Hd. unfold diagnosed in Hd.
  repeat (apply orb_true_iff in Hd as [Hd|Hd]);
    apply Z_eqb_eq_subst in Hd; subst status;
    unfold Petsmart.classify, theme_keyword; cbn [Z.eqb Pos.eqb];
    (split; [| split]).
  all: try (intros Hn; vm_compute in Hn; discriminate Hn).
  all: try (intros _; apply occurs_in_mid).
  all: try (rewrite ?app_assoc; apply occurs_in_suffix).
  all: try (apply occurs_in_lit_l; vm_compute; reflexivity).
  apply occurs_in_app_r, occurs_in_app_r, occurs_in_lit_l.
  vm_compute; reflexivity.
Qed.

End ClassifierFacts.

(* ================================================================== *)
(** ** The model on concrete inputs *)

Section Examples.

Import Requests Fixtures Petsmart.

Example trim_both_ends :
  trim ([9; 32; 160]%N ++ lit "a b" ++ [10; 13; 8233]%N) = lit "a b".
Proof. reflexivity. Qed.

Example trim_blank : trim (lit "   ") = [].
Proof. reflexivity. Qed.

Example convert_checkbox : convertOpalMarkdownToJira (lit "- [ ] foo") = lit "[] foo".
Proof. vm_compute. reflexivity. Qed.

(** Indentation and the blank line before an item go to [^\s*]; trailing
    blanks stay in the text. *)
Example convert_indented :
  convertOpalMarkdownToJira
    (lit "a" ++ [10; 10]%N ++ lit "  * [x]   foo  " ++ [10]%N ++ lit "b")
  = lit "a" ++ [10]%N ++ lit "[] foo  " ++ [10]%N ++ lit "b".
Proof. vm_compute. reflexivity. Qed.

(** An item without text takes its last blank as text. *)
Example convert_empty_item : convertOpalMarkdownToJira (lit "- [ ] ") = lit "[]  ".
Proof. vm_compute. reflexivity. Qed.

(** No bullet, no rewriting. *)
Example convert_no_bullet : convertOpalMarkdownToJira (lit "[x] foo") = lit "[x] foo".
Proof. vm_compute. reflexivity. Qed.

Example convert_emoji :
  convertOpalMarkdownToJira
    (lit "- [x] a" ++ [0x201a; 0xf9; 0xa7; 0xd4; 0x220f; 0xe8]%N ++
     [10; 10; 10]%N ++ [0x201a; 0xf9; 0xe5]%N ++ lit "b")
  = lit "[] a:heart:" ++ [10; 10; 10]%N ++ lit ":x:b".
Proof. vm_compute. reflexivity. Qed.

(** The whole run of a valid request on a provider that finds the assignee
    and creates DHK-123. *)
Example dex_run_ok :
  Dex.createJiraTicket users_found post_created base_url request_ok st0
  = ({| world := tt;
        calls :=
          [ GetUserSearch (lit "alex.wald@optimizely.com");
            PostIssue
              {| project_key := lit "DHK";
                 summary := lit "Fix the login page";
                 description := Some (one_paragraph (lit "Steps to reproduce"));
                 issuetype_name := lit "Story";
                 assignee_accountId := Some (lit "5b10ac8d82e05b22cc7d4ef5") |} ];
        console := [] |},
     inl {| success := true;
            ticketKey := lit "DHK-123";
            ticketUrl := lit "https://jira.example.com/browse/DHK-123";
            ticketId := lit "10001";
            message :=
              lit "Successfully created JIRA ticket DHK-123 in DEX project. The ticket has been assigned to Alex Wald and can be viewed at https://jira.example.com/browse/DHK-123" |}).
Proof. vm_compute. reflexivity. Qed.

(** Without a matching account: a warning on the console, no assignee. *)
Example petsmart_run_no_account :
  Petsmart.createJiraTicket users_none post_created base_url
    {| p_summary := Some (lit "Plan"); p_description := Some (lit "  ") |} st0
  = ({| world := tt;
        calls :=
          [ GetUserSearch (lit "oruhland@petsmart.com");
            PostIssue
              {| project_key := lit "DTO";
                 summary := lit "Plan";
                 description := None;
                 issuetype_name := lit "Epic";
                 assignee_accountId := None |} ];
        console :=
          [ lit "Warning: Could not find user oruhland@petsmart.com, creating ticket without assignee" ] |},
     inl {| success := true;
            ticketKey := lit "DHK-123";
            ticketUrl := lit "https://jira.example.com/browse/DHK-123";
            ticketId := lit "10001";
            message :=
              lit "Successfully created JIRA ticket DHK-123 in Petsmart DTO project. Attempted to assign to oruhland@petsmart.com. Check the ticket to verify assignment. View at https://jira.example.com/browse/DHK-123" |}).
Proof. vm_compute. reflexivity. Qed.

(** The bounds of rules 2 and 3 are inclusive. *)
Example summary_255_accepted :
  valid {| p_summary := Some (repeat (ch "a") 255); p_description := None |}
  = true.
Proof. vm_compute. reflexivity. Qed.

Example summary_256_rejected :
  snd (Dex.createJiraTicket users_found post_created base_url
         {| p_summary := Some (repeat (ch "a") 256); p_description := None |}
         st0)
  = inr (newError (lit "Summary must be 255 characters or less")).
Proof. vm_compute. reflexivity. Qed.

Example description_32767_accepted :
  valid {| p_summary := Some (lit "s");
           p_description := Some (repeat (ch "a") (N.to_nat 32767)) |}
  = true.
Proof. vm_compute. reflexivity. Qed.

Example description_32768_rejected :
  Dex.createJiraTicket users_found post_created base_url
    {| p_summary := Some (lit "s");
       p_description := Some (repeat (ch "a") (N.to_nat 32768)) |} st0
  = (st0, inr (newError (lit "Description must be 32,767 characters or less"))).
Proof. vm_compute. reflexivity. Qed.

(** The message of a rejected request: the body's [message], else its first
    [errorMessages], else the message of the axios error. *)
Example interceptor_message_order :
  interceptor (HasResponse 400
                 (Some {| data_message := Some [];
                          data_errorMessages := Some [lit "Field is required"] |})
                 (lit "Request failed with status code 400"))
  = JiraClientError (lit "Field is required") 400 /\
  interceptor (HasResponse 500 None (lit "Request failed with status code 500"))
  = JiraClientError (lit "Request failed with status code 500") 500.
Proof. split; reflexivity. Qed.

(** An email with an unpaired surrogate: [encodeURIComponent] throws, no
    call is made, and the error is wrapped with status 0. *)
Example getUserByEmail_unpaired_surrogate :
  isWellFormed (lit "a" ++ [0xD83D]%N ++ lit "@x.org") = false /\
  isWellFormed (lit "a" ++ [0xD83D; 0xDE00]%N ++ lit "@x.org") = true /\
  getUserByEmail users_found (lit "a" ++ [0xD83D]%N ++ lit "@x.org") st0
  = (st0,
     inr (JiraClientError
            (lit "Failed to find user a" ++ [0xD83D]%N ++
             lit "@x.org: URIError: URI malformed") 0)).
Proof. repeat split; vm_compute; reflexivity. Qed.

End Examples.

(* ================================================================== *)
(** * The claims *)

Section Claims.

Import Requests Fixtures.

(** C1.  [createJiraTicket] applies the three validation rules in order and
    the first rule broken decides the error: a missing or trim-to-empty
    summary throws "Summary is required and cannot be empty"; otherwise an
    untrimmed summary longer than 255 throws "Summary must be 255
    characters or less"; otherwise a description longer than 32767 throws
    "Description must be 32,767 characters or less".  In each case the state
    is the initial one: no call was made to the provider.  Both
    deployments. *)
Theorem C1_validation_first_failure_wins :
  forall (World : Type)
         (http_get_users :
            jsstring -> World -> World * AxiosResult (option (list JiraUser)))
         (http_post_issue :
            CreateIssueRequest -> World ->
            World * AxiosResult CreateIssueResponse)
         (env_JIRA_BASE_URL : option jsstring)
         (p : CreateJiraTicketParams) (v : Violation) (st : St World),
    first_violation p v ->
    (Dex.createJiraTicket http_get_users http_post_issue env_JIRA_BASE_URL p st
     = (st, inr (newError (violation_message v))) /\
     calls (fst (Dex.createJiraTicket http_get_users http_post_issue
                   env_JIRA_BASE_URL p st)) = calls st) /\
    (Petsmart.createJiraTicket http_get_users http_post_issue
                               env_JIRA_BASE_URL p st
     = (st, inr (newError (violation_message v))) /\
     calls (fst (Petsmart.createJiraTicket http_get_users http_post_issue
                   env_JIRA_BASE_URL p st)) = calls st).
Proof.
  intros World get post env p v st Hv.
  rewrite (Dex_rejects get post env p v st Hv).
  rewrite (Petsmart_rejects get post env p v st Hv).
  repeat split.
Qed.

Lemma C1_witness :
  first_violation request_blank SummaryRequired /\
  Dex.createJiraTicket users_found post_created base_url request_blank st0
  = (st0, inr (newError (lit "Summary is required and cannot be empty"))).
Proof.
  assert (H : first_violation request_blank SummaryRequired)
    by (vm_compute; reflexivity).
  split; [exact H|].
  exact (proj1 (proj1 (C1_validation_first_failure_wins
                         users_found post_created base_url
                         request_blank SummaryRequired st0 H))).
Defined.

(** C2.  For every valid request the run makes exactly two calls, the user
    search for the fixed assignee email and the post of the issue, and the
    posted body has the fixed project key and issue type; its assignee is
    the account the provider resolved for the fixed email.  Nothing of the
    request enters these fields.  Both deployments. *)
Theorem C2_payload_uses_fixed_configuration :
  forall (World : Type)
         (http_get_users :
            jsstring -> World -> World * AxiosResult (option (list JiraUser)))
         (http_post_issue :
            CreateIssueRequest -> World ->
            World * AxiosResult CreateIssueResponse)
         (env_JIRA_BASE_URL : option jsstring)
         (p : CreateJiraTicketParams) (st : St World),
    valid p = true ->
    (exists body,
        calls (fst (Dex.createJiraTicket http_get_users http_post_issue
                      env_JIRA_BASE_URL p st))
        = calls st ++ [GetUserSearch (lit "alex.wald@optimizely.com");
                       PostIssue body] /\
        project_key body = lit "DHK" /\
        issuetype_name body = lit "Story" /\
        assignee_accountId body
        = resolved_account
            (snd (http_get_users (lit "alex.wald@optimizely.com") (world st))))
    /\
    (exists body,
        calls (fst (Petsmart.createJiraTicket http_get_users http_post_issue
                      env_JIRA_BASE_URL p st))
        = calls st ++ [GetUserSearch (lit "oruhland@petsmart.com");
                       PostIssue body] /\
        project_key body = lit "DTO" /\
        issuetype_name body = lit "Epic" /\
        assignee_accountId body
        = resolved_account
            (snd (http_get_users (lit "oruhland@petsmart.com") (world st)))).
Proof.
  intros World get post env p st Hvalid. split.
  - destruct (get Dex.ALEX_WALD_EMAIL (world st)) as [w1 r1] eqn:Hget.
    destruct (post (dex_body p r1) w1) as [w2 r2] eqn:Hpost.
    rewrite (Dex_run get post env p st Hvalid Hget Hpost).
    exists (dex_body p r1).
    change (lit "alex.wald@optimizely.com") with Dex.ALEX_WALD_EMAIL.
    rewrite Hget. repeat split.
  - destruct (get Petsmart.PETSMART_ASSIGNEE_EMAIL (world st))
      as [w1 r1] eqn:Hget.
    destruct (post (petsmart_body p r1) w1) as [w2 r2] eqn:Hpost.
    rewrite (Petsmart_run get post env p st Hvalid Hget Hpost).
    exists (petsmart_body p r1).
    change (lit "oruhland@petsmart.com") with Petsmart.PETSMART_ASSIGNEE_EMAIL.
    rewrite Hget. repeat split.
Qed.

Lemma C2_witness :
  valid request_ok = true /\
  exists body,
    calls (fst (Dex.createJiraTicket users_found post_created base_url
                  request_ok st0))
    = calls st0 ++ [GetUserSearch (lit "alex.wald@optimizely.com");
                    PostIssue body] /\
    project_key body = lit "DHK" /\
    issuetype_name body = lit "Story" /\
    assignee_accountId body
    = resolved_account
        (snd (users_found (lit "alex.wald@optimizely.com") (world st0))).
Proof.
  assert (H : valid request_ok = true) by (vm_compute; reflexivity).
  split; [exact H|].
  exact (proj1 (C2_payload_uses_fixed_configuration
                  users_found post_created base_url request_ok st0 H)).
Defined.

(** C3.  When the user search for the assignee resolves no account (the
    request is rejected, whatever the status, or it answers with no user,
    which [getUserByEmail] turns into a 404), a valid request still builds
    and posts the issue: the run is the user search followed by the post of
    the whole body -- fixed project key and issue type, trimmed summary,
    description as for any request -- without the assignee field.  The
    outcome is that of this post alone: when it resolves the result is
    successful, and an error can only come from its rejection.  Both
    deployments. *)
Theorem C3_assignee_lookup_failure_is_not_fatal :
  forall (World : Type)
         (http_get_users :
            jsstring -> World -> World * AxiosResult (option (list JiraUser)))
         (http_post_issue :
            CreateIssueRequest -> World ->
            World * AxiosResult CreateIssueResponse)
         (env_JIRA_BASE_URL : option jsstring)
         (p : CreateJiraTicketParams) (st : St World),
    valid p = true ->
    (lookup_fails (snd (http_get_users Dex.ALEX_WALD_EMAIL (world st))) = true ->
     let run := Dex.createJiraTicket http_get_users http_post_issue
                  env_JIRA_BASE_URL p st in
     let w1 := fst (http_get_users Dex.ALEX_WALD_EMAIL (world st)) in
     let body :=
       {| project_key := Dex.DEX_PROJECT_KEY;
          summary := trim (summary_of p);
          description :=
            match p_description p with
            | Some d =>
                if truthy (trim d) then Some (one_paragraph (trim d)) else None
            | None => None
            end;
          issuetype_name := Dex.DEFAULT_ISSUE_TYPE;
          assignee_accountId := None |} in
     calls (fst run)
     = calls st ++ [GetUserSearch Dex.ALEX_WALD_EMAIL; PostIssue body] /\
     (forall resp,
         snd (http_post_issue body w1) = Resolved resp ->
         exists t, snd run = inl t /\ success t = true /\
                   ticketKey t = resp_key resp /\
                   ticketId t = resp_id resp) /\
     (forall err,
         snd run = inr err ->
         exists e, snd (http_post_issue body w1) = Rejected e))
    /\
    (lookup_fails
       (snd (http_get_users Petsmart.PETSMART_ASSIGNEE_EMAIL (world st))) = true ->
     let run := Petsmart.createJiraTicket http_get_users http_post_issue
                  env_JIRA_BASE_URL p st in
     let w1 :=
       fst (http_get_users Petsmart.PETSMART_ASSIGNEE_EMAIL (world st)) in
     let body :=
       {| project_key := Petsmart.PETSMART_PROJECT_KEY;
          summary := trim (summary_of p);
          description :=
            match p_description p with
            | Some d =>
                if truthy (trim d)
                then Some (one_paragraph
                             (Petsmart.convertOpalMarkdownToJira (trim d)))
                else None
            | None => None
            end;
          issuetype_name := Petsmart.DEFAULT_ISSUE_TYPE;
          assignee_accountId := None |} in
     calls (fst run)
     = calls st ++ [GetUserSearch Petsmart.PETSMART_ASSIGNEE_EMAIL;
                    PostIssue body] /\
     (forall resp,
         snd (http_post_issue body w1) = Resolved resp ->
         exists t, snd run = inl t /\ success t = true /\
                   ticketKey t = resp_key resp /\
                   ticketId t = resp_id resp) /\
     (forall err,
         snd run = inr err ->
         exists e, snd (http_post_issue body w1) = Rejected e)).
Proof.
  intros World get post env p st Hvalid. split.
  - destruct (get Dex.ALEX_WALD_EMAIL (world st)) as [w1 r1] eqn:Hget.
    cbn [fst snd]. intros Hfail. cbv zeta.
    assert (Hbody : dex_body p r1
                    = {| project_key := Dex.DEX_PROJECT_KEY;
                         summary := trim (summary_of p);
                         description :=
                           match p_description p with
                           | Some d =>
                               if truthy (trim d)
                               then Some (one_paragraph (trim d)) else None
                           | None => None
                           end;
                         issuetype_name := Dex.DEFAULT_ISSUE_TYPE;
                         assignee_accountId := None |}).
    { unfold dex_body, issue_body.
      rewrite (lookup_fails_no_account r1 Hfail).
      destruct (p_description p) as [d|]; reflexivity. }
    rewrite <- Hbody.
    destruct (post (dex_body p r1) w1) as [w2 r2] eqn:Hpost.
    rewrite (Dex_run get post env p st Hvalid Hget Hpost).
    cbn [fst snd]. repeat split.
    + intros resp ->. eexists. repeat split.
    + intros err Herr. destruct r2 as [d|e]; [discriminate|eauto].
  - destruct (get Petsmart.PETSMART_ASSIGNEE_EMAIL (world st))
      as [w1 r1] eqn:Hget.
    cbn [fst snd]. intros Hfail. cbv zeta.
    assert (Hbody : petsmart_body p r1
                    = {| project_key := Petsmart.PETSMART_PROJECT_KEY;
                         summary := trim (summary_of p);
                         description :=
                           match p_description p with
                           | Some d =>
                               if truthy (trim d)
                               then Some (one_paragraph
                                            (Petsmart.convertOpalMarkdownToJira
                                               (trim d)))
                               else None
                           | None => None
                           end;
                         issuetype_name := Petsmart.DEFAULT_ISSUE_TYPE;
                         assignee_accountId := None |}).
    { unfold petsmart_body, issue_body.
      rewrite (lookup_fails_no_account r1 Hfail).
      destruct (p_description p) as [d|]; [|reflexivity].
      destruct (truthy d) eqn:Hd.
      - destruct (trim d) as [|c t] eqn:Et; [reflexivity|].
        destruct (Petsmart.convertOpalMarkdownToJira (c :: t)) eqn:Ec.
        + apply convertOpalMarkdownToJira_nonempty in Ec. discriminate Ec.
        + reflexivity.
      - destruct d; [reflexivity|discriminate Hd]. }
    rewrite <- Hbody.
    destruct (post (petsmart_body p r1) w1) as [w2 r2] eqn:Hpost.
    rewrite (Petsmart_run get post env p st Hvalid Hget Hpost).
    cbn [fst snd]. repeat split.
    + intros resp ->. eexists. repeat split.
    + intros err Herr. destruct r2 as [d|e]; [discriminate|eauto].
Qed.

Lemma C3_witness :
  valid request_ok = true /\
  lookup_fails (snd (users_404 Dex.ALEX_WALD_EMAIL (world st0))) = true /\
  calls (fst (Dex.createJiraTicket users_404 post_created base_url
                request_ok st0))
  = [GetUserSearch (lit "alex.wald@optimizely.com");
     PostIssue {| project_key := lit "DHK";
                  summary := lit "Fix the login page";
                  description :=
                    Some (one_paragraph (lit "Steps to reproduce"));
                  issuetype_name := lit "Story";
                  assignee_accountId := None |}] /\
  exists t,
    snd (Dex.createJiraTicket users_404 post_created base_url request_ok st0)
    = inl t /\
    success t = true /\ ticketKey t = lit "DHK-123" /\ ticketId t = lit "10001".
Proof.
  assert (H : valid request_ok = true) by (vm_compute; reflexivity).
  split; [exact H|]. split; [reflexivity|].
  destruct (proj1 (C3_assignee_lookup_failure_is_not_fatal
                     users_404 post_created base_url request_ok st0 H)
                  eq_refl) as (Hcalls & Hok & _).
  split; [exact Hcalls|].
  exact (Hok created eq_refl).
Defined.

(** C4, as the code has it.  For each status in 400, 401, 403, 404, 429:
    when the post a valid request makes is rejected with that status and
    the technical message X, the run is the user search and that post, and
    the error thrown by [createJiraTicket] holds the theme keyword of the
    status ("Invalid request data", "Authentication", "Access denied",
    "not found", "Rate limit exceeded") and X; for 400, 403 and 404 it also
    holds the project key.  Both deployments. *)
Theorem C4_diagnosis_names_theme_and_detail :
  forall (World : Type)
         (http_get_users :
            jsstring -> World -> World * AxiosResult (option (list JiraUser)))
         (http_post_issue :
            CreateIssueRequest -> World ->
            World * AxiosResult CreateIssueResponse)
         (env_JIRA_BASE_URL : option jsstring)
         (p : CreateJiraTicketParams) (st : St World)
         (e : AxiosError) (status : Z) (X : jsstring),
    valid p = true ->
    diagnosed status = true ->
    interceptor e = JiraClientError X status ->
    (let run := Dex.createJiraTicket http_get_users http_post_issue
                  env_JIRA_BASE_URL p st in
     let w1 := fst (http_get_users Dex.ALEX_WALD_EMAIL (world st)) in
     let body :=
       dex_body p (snd (http_get_users Dex.ALEX_WALD_EMAIL (world st))) in
     snd (http_post_issue body w1) = Rejected e ->
     calls (fst run)
     = calls st ++ [GetUserSearch Dex.ALEX_WALD_EMAIL; PostIssue body] /\
     exists msg,
       snd run = inr (newError msg) /\
       occurs_in (theme_keyword status) msg /\
       occurs_in X msg /\
       (names_project_key status = true ->
        occurs_in Dex.DEX_PROJECT_KEY msg))
    /\
    (let run := Petsmart.createJiraTicket http_get_users http_post_issue
                  env_JIRA_BASE_URL p st in
     let w1 :=
       fst (http_get_users Petsmart.PETSMART_ASSIGNEE_EMAIL (world st)) in
     let body :=
       petsmart_body p
         (snd (http_get_users Petsmart.PETSMART_ASSIGNEE_EMAIL (world st))) in
     snd (http_post_issue body w1) = Rejected e ->
     calls (fst run)
     = calls st ++ [GetUserSearch Petsmart.PETSMART_ASSIGNEE_EMAIL;
                    PostIssue body] /\
     exists msg,
       snd run = inr (newError msg) /\
       occurs_in (theme_keyword status) msg /\
       occurs_in X msg /\
       (names_project_key status = true ->
        occurs_in Petsmart.PETSMART_PROJECT_KEY msg)).
Proof.
  intros World get post env p st e status X Hvalid Hd He. split; cbv zeta.
  - destruct (get Dex.ALEX_WALD_EMAIL (world st)) as [w1 r1] eqn:Hget.
    cbn [fst snd].
    destruct (post (dex_body p r1) w1) as [w2 r2] eqn:Hp.
    cbn [snd]. intros ->.
    rewrite (Dex_run get post env p st Hvalid Hget Hp).
    cbn [fst snd]. split; [reflexivity|]. rewrite He.
    exists (Dex.classify status X). split; [reflexivity|].
    now apply Dex_classify_contains.
  - destruct (get Petsmart.PETSMART_ASSIGNEE_EMAIL (world st))
      as [w1 r1] eqn:Hget.
    cbn [fst snd].
    destruct (post (petsmart_body p r1) w1) as [w2 r2] eqn:Hp.
    cbn [snd]. intros ->.
    rewrite (Petsmart_run get post env p st Hvalid Hget Hp).
    cbn [fst snd]. split; [reflexivity|]. rewrite He.
    exists (Petsmart.classify status X). split; [reflexivity|].
    now apply Petsmart_classify_contains.
Qed.

Lemma C4_witness :
  valid request_ok = true /\
  diagnosed 403 = true /\
  interceptor (failure 403 (lit "X")) = JiraClientError (lit "X") 403 /\
  snd (post_rejected (failure 403 (lit "X"))
         (dex_body request_ok
            (snd (users_found Dex.ALEX_WALD_EMAIL (world st0))))
         (fst (users_found Dex.ALEX_WALD_EMAIL (world st0))))
  = Rejected (failure 403 (lit "X")) /\
  exists msg,
    snd (Dex.createJiraTicket users_found
           (post_rejected (failure 403 (lit "X"))) base_url request_ok st0)
    = inr (newError msg) /\
    occurs_in (theme_keyword 403) msg /\
    occurs_in (lit "X") msg /\
    (names_project_key 403 = true -> occurs_in Dex.DEX_PROJECT_KEY msg).
Proof.
  assert (H : valid request_ok = true) by (vm_compute; reflexivity).
  split; [exact H|]. split; [reflexivity|]. split; [reflexivity|].
  split; [reflexivity|].
  exact (proj2 (proj1 (@C4_diagnosis_names_theme_and_detail
                  unit users_found (post_rejected (failure 403 (lit "X")))
                  base_url request_ok st0 (failure 403 (lit "X")) 403%Z
                  (lit "X") H eq_refl eq_refl) eq_refl)).
Defined.

(** C4 as stated fails for 401 and 429: with the post rejected with status
    401 (or 429) and message "X", the error thrown holds neither project
    key. *)
Lemma C4_counterexample :
  (snd (Dex.createJiraTicket users_found
          (post_rejected (failure 401 (lit "X"))) base_url request_ok st0)
   = inr (newError (Dex.classify 401 (lit "X"))) /\
   ~ occurs_in Dex.DEX_PROJECT_KEY (Dex.classify 401 (lit "X")))
  /\
  (snd (Dex.createJiraTicket users_found
          (post_rejected (failure 429 (lit "X"))) base_url request_ok st0)
   = inr (newError (Dex.classify 429 (lit "X"))) /\
   ~ occurs_in Dex.DEX_PROJECT_KEY (Dex.classify 429 (lit "X")))
  /\
  (snd (Petsmart.createJiraTicket users_found
          (post_rejected (failure 401 (lit "X"))) base_url request_ok st0)
   = inr (newError (Petsmart.classify 401 (lit "X"))) /\
   ~ occurs_in Petsmart.PETSMART_PROJECT_KEY
       (Petsmart.classify 401 (lit "X"))).
Proof.
  repeat split; try (vm_compute; reflexivity);
    apply not_occurs; vm_compute; reflexivity.
Qed.

(** C5, as the code has it.  The classifier is total: for every integer
    status there is a non-empty diagnosis, independent of the technical
    detail, and the message is that diagnosis followed by the detail.  Every
    status outside 400, 401, 403, 404, 429 -- status 0 included -- gets the
    one generic diagnosis "Failed to create JIRA ticket in DEX project: ".
    What sets a request without response apart is only the detail the
    client's interceptor gives it, together with status 0.  Both
    deployments. *)
Theorem C5_classifier_total_and_keeps_detail :
  forall (status : Z) (detail : jsstring),
    (exists diagnosis,
        diagnosis <> [] /\
        forall m, Dex.classify status m = diagnosis ++ m) /\
    (exists diagnosis,
        diagnosis <> [] /\
        forall m, Petsmart.classify status m = diagnosis ++ m) /\
    (diagnosed status = false ->
     Dex.classify status detail
     = lit "Failed to create JIRA ticket in DEX project: " ++ detail /\
     Petsmart.classify status detail
     = lit "Failed to create JIRA ticket in DEX project: " ++ detail) /\
    (forall m,
        interceptor (HasRequest m)
        = JiraClientError (lit "Network error: Unable to reach JIRA server") 0).
Proof.
  intros status detail. unfold Dex.classify, Petsmart.classify, diagnosed.
  destruct (status =? 400)%Z;
    [|destruct (status =? 401)%Z;
      [|destruct (status =? 403)%Z;
        [|destruct (status =? 404)%Z;
          [|destruct (status =? 429)%Z]]]];
    (split; [|split; [|split; [|reflexivity]]]);
    try (intros H; discriminate H);
    try (intros _; split; reflexivity);
    (eexists; split;
     [|intros m; rewrite ?app_assoc; reflexivity]; discriminate).
Qed.

Lemma C5_witness :
  diagnosed 0 = false /\
  Dex.classify 0 (lit "Network error: Unable to reach JIRA server")
  = lit "Failed to create JIRA ticket in DEX project: " ++
    lit "Network error: Unable to reach JIRA server" /\
  Petsmart.classify 0 (lit "Network error: Unable to reach JIRA server")
  = lit "Failed to create JIRA ticket in DEX project: " ++
    lit "Network error: Unable to reach JIRA server".
Proof.
  split; [reflexivity|].
  exact (proj1 (proj2 (proj2
           (C5_classifier_total_and_keeps_detail 0
              (lit "Network error: Unable to reach JIRA server"))))
           eq_refl).
Defined.

(** C5 as stated fails at status 0: the classifier has no message of its
    own for it.  With the same detail it gives status 0 exactly what it
    gives status 500, the generic message; and a post that got no response
    ends in that generic message around the client's detail. *)
Lemma C5_counterexample :
  Dex.classify 0 (lit "X") = Dex.classify 500 (lit "X") /\
  Dex.classify 0 (lit "X")
  = lit "Failed to create JIRA ticket in DEX project: X" /\
  Petsmart.classify 0 (lit "X") = Petsmart.classify 500 (lit "X") /\
  snd (Dex.createJiraTicket users_found
         (post_rejected (HasRequest (lit "timeout of 30000ms exceeded")))
         base_url request_ok st0)
  = inr (newError
           (lit "Failed to create JIRA ticket in DEX project: Network error: Unable to reach JIRA server")).
Proof.
  repeat split; vm_compute; reflexivity.
Qed.

(** C6.  When the post a valid request makes resolves with [{id, key}],
    the run is the user search and that post, and the result has
    [success = true], [ticketKey = key], [ticketId = id],
    [ticketUrl = baseUrl + "/browse/" + key], and a message that holds the
    key.  Both deployments. *)
Theorem C6_success_result :
  forall (World : Type)
         (http_get_users :
            jsstring -> World -> World * AxiosResult (option (list JiraUser)))
         (http_post_issue :
            CreateIssueRequest -> World ->
            World * AxiosResult CreateIssueResponse)
         (baseUrl : jsstring)
         (p : CreateJiraTicketParams) (st : St World)
         (resp : CreateIssueResponse),
    valid p = true ->
    (let run := Dex.createJiraTicket http_get_users http_post_issue
                  (Some baseUrl) p st in
     let w1 := fst (http_get_users Dex.ALEX_WALD_EMAIL (world st)) in
     let body :=
       dex_body p (snd (http_get_users Dex.ALEX_WALD_EMAIL (world st))) in
     snd (http_post_issue body w1) = Resolved resp ->
     calls (fst run)
     = calls st ++ [GetUserSearch Dex.ALEX_WALD_EMAIL; PostIssue body] /\
     exists t,
       snd run = inl t /\
       success t = true /\
       ticketKey t = resp_key resp /\
       ticketId t = resp_id resp /\
       ticketUrl t = baseUrl ++ lit "/browse/" ++ resp_key resp /\
       occurs_in (resp_key resp) (message t))
    /\
    (let run := Petsmart.createJiraTicket http_get_users http_post_issue
                  (Some baseUrl) p st in
     let w1 :=
       fst (http_get_users Petsmart.PETSMART_ASSIGNEE_EMAIL (world st)) in
     let body :=
       petsmart_body p
         (snd (http_get_users Petsmart.PETSMART_ASSIGNEE_EMAIL (world st))) in
     snd (http_post_issue body w1) = Resolved resp ->
     calls (fst run)
     = calls st ++ [GetUserSearch Petsmart.PETSMART_ASSIGNEE_EMAIL;
                    PostIssue body] /\
     exists t,
       snd run = inl t /\
       success t = true /\
       ticketKey t = resp_key resp /\
       ticketId t = resp_id resp /\
       ticketUrl t = baseUrl ++ lit "/browse/" ++ resp_key resp /\
       occurs_in (resp_key resp) (message t)).
Proof.
  intros World get post baseUrl p st resp Hvalid.
  assert (Hbase : or_str (Some baseUrl) [] = baseUrl)
    by (destruct baseUrl; reflexivity).
  split; cbv zeta.
  - destruct (get Dex.ALEX_WALD_EMAIL (world st)) as [w1 r1] eqn:Hget.
    cbn [fst snd].
    destruct (post (dex_body p r1) w1) as [w2 r2] eqn:Hp.
    cbn [snd]. intros ->.
    rewrite (Dex_run get post (Some baseUrl) p st Hvalid Hget Hp).
    cbn [fst snd]. split; [reflexivity|]. rewrite Hbase.
    eexists. split; [reflexivity|].
    cbn [success ticketKey ticketId ticketUrl message].
    repeat split. apply occurs_in_mid.
  - destruct (get Petsmart.PETSMART_ASSIGNEE_EMAIL (world st))
      as [w1 r1] eqn:Hget.
    cbn [fst snd].
    destruct (post (petsmart_body p r1) w1) as [w2 r2] eqn:Hp.
    cbn [snd]. intros ->.
    rewrite (Petsmart_run get post (Some baseUrl) p st Hvalid Hget Hp).
    cbn [fst snd]. split; [reflexivity|]. rewrite Hbase.
    eexists. split; [reflexivity|].
    cbn [success ticketKey ticketId ticketUrl message].
    repeat split. apply occurs_in_mid.
Qed.

(** The round trip of the specification: provider response
    [{id:"10001", key:"DHK-123"}] and base URL "https://jira.example.com". *)
Lemma C6_witness :
  valid request_ok = true /\
  snd (post_created
         (dex_body request_ok
            (snd (users_found Dex.ALEX_WALD_EMAIL (world st0))))
         (fst (users_found Dex.ALEX_WALD_EMAIL (world st0))))
  = Resolved created /\
  exists t,
    snd (Dex.createJiraTicket users_found post_created
           (Some (lit "https://jira.example.com")) request_ok st0) = inl t /\
    success t = true /\
    ticketKey t = lit "DHK-123" /\
    ticketId t = lit "10001" /\
    ticketUrl t = lit "https://jira.example.com/browse/DHK-123" /\
    occurs_in (lit "DHK-123") (message t).
Proof.
  assert (H : valid request_ok = true) by (vm_compute; reflexivity).
  split; [exact H|]. split; [reflexivity|].
  exact (proj2 (proj1 (@C6_success_result unit users_found post_created
                  (lit "https://jira.example.com") request_ok st0 created
                  H) eq_refl)).
Defined.

(** C7.  [validateJiraConnection] makes one call, the user search for the
    assignee, and never posts an issue; when that search resolves no
    account the result has [assigneeFound = false] and the warning appended
    to the message, while [success] and [projectAccessible] stay true.
    Both deployments. *)
Theorem C7_health_check_assignee_failure :
  forall (World : Type)
         (http_get_users :
            jsstring -> World -> World * AxiosResult (option (list JiraUser)))
         (st : St World),
    (calls (fst (Dex.validateJiraConnection http_get_users st))
     = calls st ++ [GetUserSearch Dex.ALEX_WALD_EMAIL] /\
     calls (fst (Petsmart.validateJiraConnection http_get_users st))
     = calls st ++ [GetUserSearch Petsmart.PETSMART_ASSIGNEE_EMAIL]) /\
    (lookup_fails (snd (http_get_users Dex.ALEX_WALD_EMAIL (world st))) = true ->
     snd (Dex.validateJiraConnection http_get_users st)
     = inl {| c_success := true;
              c_message :=
                lit "JIRA connection validated successfully" ++
                lit " (Warning: Could not find user " ++
                Dex.ALEX_WALD_EMAIL ++ lit ")";
              c_projectAccessible := true;
              c_assigneeFound := false |}) /\
    (lookup_fails
       (snd (http_get_users Petsmart.PETSMART_ASSIGNEE_EMAIL (world st))) = true ->
     snd (Petsmart.validateJiraConnection http_get_users st)
     = inl {| c_success := true;
              c_message :=
                lit "JIRA connection validated successfully" ++
                lit " (Warning: Could not find user " ++
                Petsmart.PETSMART_ASSIGNEE_EMAIL ++ lit ")";
              c_projectAccessible := true;
              c_assigneeFound := false |}).
Proof.
  intros World get st.
  unfold Dex.validateJiraConnection, Petsmart.validateJiraConnection.
  destruct (get Dex.ALEX_WALD_EMAIL (world st)) as [w1 r1] eqn:Hget1.
  destruct (get Petsmart.PETSMART_ASSIGNEE_EMAIL (world st))
    as [w2 r2] eqn:Hget2.
  destruct (getUserByEmail_run get Dex.ALEX_WALD_EMAIL st eq_refl Hget1)
    as (res1 & Hrun1 & Hres1).
  destruct (getUserByEmail_run get Petsmart.PETSMART_ASSIGNEE_EMAIL st
              eq_refl Hget2)
    as (res2 & Hrun2 & Hres2).
  unfold try_catch, bind. rewrite Hrun1, Hrun2. cbn [snd].
  destruct res1 as [u1|e1], res2 as [u2|e2]; cbn [fst snd calls ret];
    repeat split; try reflexivity; intros Hf;
    try reflexivity;
    (destruct Hres1 as [Hx _]; congruence) ||
    (destruct Hres2 as [Hx _]; congruence).
Qed.

Lemma C7_witness :
  lookup_fails (snd (users_404 Dex.ALEX_WALD_EMAIL (world st0))) = true /\
  snd (Dex.validateJiraConnection users_404 st0)
  = inl {| c_success := true;
           c_message :=
             lit "JIRA connection validated successfully (Warning: Could not find user alex.wald@optimizely.com)";
           c_projectAccessible := true;
           c_assigneeFound := false |}.
Proof.
  split; [reflexivity|].
  exact (proj1 (proj2 (C7_health_check_assignee_failure users_404 st0))
               eq_refl).
Defined.

(** C8.  The last step of [convertOpalMarkdownToJira], which replaces every
    double line feed by a double line feed, changes nothing: the function
    without that step gives the same output on every input. *)
Theorem C8_blank_line_step_is_a_no_op :
  forall s : jsstring,
    Petsmart.convertOpalMarkdownToJira s
    = Checklist.convertOpalMarkdownToJira_without_blank_line_step s.
Proof.
  intros s.
  unfold Petsmart.convertOpalMarkdownToJira,
         Checklist.convertOpalMarkdownToJira_without_blank_line_step.
  cbv zeta. apply blank_line_step_identity.
Qed.

(** C9.  For a valid request whose description is absent, empty or only
    white space, the posted body has no description field; for one whose
    description is not blank, the description of the body is a document of
    one paragraph holding one run of text: the trimmed description (DEX) or
    its conversion, which is never empty (Petsmart). *)
Theorem C9_description_field :
  forall (World : Type)
         (http_get_users :
            jsstring -> World -> World * AxiosResult (option (list JiraUser)))
         (http_post_issue :
            CreateIssueRequest -> World ->
            World * AxiosResult CreateIssueResponse)
         (env_JIRA_BASE_URL : option jsstring)
         (p : CreateJiraTicketParams) (st : St World),
    valid p = true ->
    (exists body,
        calls (fst (Dex.createJiraTicket http_get_users http_post_issue
                      env_JIRA_BASE_URL p st))
        = calls st ++ [GetUserSearch Dex.ALEX_WALD_EMAIL; PostIssue body] /\
        (description_blank p = true -> description body = None) /\
        (forall d,
            p_description p = Some d -> truthy (trim d) = true ->
            description body = Some (one_paragraph (trim d))))
    /\
    (exists body,
        calls (fst (Petsmart.createJiraTicket http_get_users http_post_issue
                      env_JIRA_BASE_URL p st))
        = calls st ++ [GetUserSearch Petsmart.PETSMART_ASSIGNEE_EMAIL;
                       PostIssue body] /\
        (description_blank p = true -> description body = None) /\
        (forall d,
            p_description p = Some d -> truthy (trim d) = true ->
            truthy (Petsmart.convertOpalMarkdownToJira (trim d)) = true /\
            description body
            = Some (one_paragraph
                      (Petsmart.convertOpalMarkdownToJira (trim d))))).
Proof.
  intros World get post env p st Hvalid. split.
  - destruct (get Dex.ALEX_WALD_EMAIL (world st)) as [w1 r1] eqn:Hget.
    destruct (post (dex_body p r1) w1) as [w2 r2] eqn:Hpost.
    rewrite (Dex_run get post env p st Hvalid Hget Hpost).
    exists (dex_body p r1). split; [reflexivity|].
    unfold dex_body, issue_body, description_blank. cbn [description].
    split.
    + destruct (p_description p) as [d|]; cbn [option_map]; [|reflexivity].
      intros H. apply negb_true_iff in H. now rewrite H.
    + intros d -> H. cbn [option_map]. now rewrite H.
  - destruct (get Petsmart.PETSMART_ASSIGNEE_EMAIL (world st))
      as [w1 r1] eqn:Hget.
    destruct (post (petsmart_body p r1) w1) as [w2 r2] eqn:Hpost.
    rewrite (Petsmart_run get post env p st Hvalid Hget Hpost).
    exists (petsmart_body p r1). split; [reflexivity|].
    unfold petsmart_body, issue_body, description_blank. cbn [description].
    split.
    + destruct (p_description p) as [d|]; [|reflexivity].
      intros H. apply negb_true_iff in H.
      destruct (truthy d); [|reflexivity].
      destruct (trim d); [reflexivity|discriminate].
    + intros d -> H.
      assert (Hd : truthy d = true).
      { destruct d; [discriminate H|reflexivity]. }
      assert (Hc : truthy (Petsmart.convertOpalMarkdownToJira (trim d)) = true).
      { destruct (Petsmart.convertOpalMarkdownToJira (trim d)) eqn:E;
          [|reflexivity].
        apply convertOpalMarkdownToJira_nonempty in E. rewrite E in H.
        discriminate H. }
      rewrite Hd, Hc. split; reflexivity.
Qed.

Lemma C9_witness :
  valid request_ok = true /\
  p_description request_ok = Some (lit " Steps to reproduce ") /\
  truthy (trim (lit " Steps to reproduce ")) = true /\
  exists body,
    calls (fst (Dex.createJiraTicket users_found post_created base_url
                  request_ok st0))
    = calls st0 ++ [GetUserSearch Dex.ALEX_WALD_EMAIL; PostIssue body] /\
    description body = Some (one_paragraph (lit "Steps to reproduce")).
Proof.
  assert (H : valid request_ok = true) by (vm_compute; reflexivity).
  split; [exact H|]. split; [reflexivity|]. split; [reflexivity|].
  destruct (proj1 (C9_description_field users_found post_created base_url
                     request_ok st0 H)) as (body & Hcalls & _ & Hd).
  exists body. split; [exact Hcalls|].
  exact (Hd (lit " Steps to reproduce ") eq_refl eq_refl).
Defined.

(** C10.  The claim holds of checkbox lines taken one at a time, but the
    code breaks it for a checkbox line that follows a bare marker.  The
    white space the expression allows after the box is [\s*], which also
    takes line terminators: in "- [ ]" followed by a line feed and
    "- [x] b" it reaches over the line end, the whole second line becomes
    the text of the first, and its box is kept.  The line [- [x] b] is not
    rewritten to [[] b], and the converted description differs with the
    state of the box. *)
Theorem C10_box_after_bare_marker_is_kept :
  Checklist.document dangling = lit "- [ ]" ++ [10%N] ++ lit "- [x] b" /\
  Checklist.normalizeCheckboxes (Checklist.document dangling)
  = lit "[] - [x] b" /\
  Petsmart.convertOpalMarkdownToJira (Checklist.document dangling)
  = lit "[] - [x] b" /\
  Petsmart.convertOpalMarkdownToJira
    (Checklist.document (map Checklist.uncheck dangling))
  = lit "[] - [ ] b" /\
  Petsmart.convertOpalMarkdownToJira (Checklist.document dangling)
  <> Petsmart.convertOpalMarkdownToJira
       (Checklist.document (map Checklist.uncheck dangling)).
Proof.
  repeat split; try (vm_compute; reflexivity).
  vm_compute. discriminate.
Qed.

End Claims.

(* ================================================================== *)
(** * Further properties of the code *)

(** ** [trim] *)

Section TrimFacts.

Import Shapes.

Lemma trimStart_suffix (s : jsstring) : exists pre, s = pre ++ trimStart s.
Proof.
  induction s as [|c s [pre IH]]; simpl.
  - now exists [].
  - destruct (isSpace c).
    + exists (c :: pre). simpl. now rewrite <- IH.
    + now exists [].
Qed.

Lemma trimStart_starts_clean (s : jsstring) : starts_clean (trimStart s).
Proof.
  induction s as [|c s IH]; simpl; [exact I|].
  destruct (isSpace c) eqn:E; [exact IH|exact E].
Qed.

Lemma trimStart_length (s : jsstring) : length (trimStart s) <= length s.
Proof.
  destruct (trimStart_suffix s) as [pre E].
  rewrite E at 2. rewrite length_app. lia.
Qed.

Lemma trim_length (s : jsstring) : length (trim s) <= length s.
Proof.
  unfold trim, trimEnd. rewrite length_rev.
  etransitivity; [apply trimStart_length|].
  rewrite length_rev. apply trimStart_length.
Qed.

(** The last code unit of a trimmed string is not white space. *)
Lemma trim_ends_clean (s : jsstring) : starts_clean (rev (trim s)).
Proof.
  unfold trim, trimEnd. rewrite rev_involutive.
  apply trimStart_starts_clean.
Qed.

(** Nor is the first. *)
Lemma trim_starts_clean (s : jsstring) : starts_clean (trim s).
Proof.
  unfold trim, trimEnd.
  pose proof (trimStart_starts_clean s) as Ht.
  destruct (trimStart_suffix (rev (trimStart s))) as [pre E].
  apply (f_equal (@rev _)) in E.
  rewrite rev_involutive, rev_app_distr in E.
  destruct (rev (trimStart (rev (trimStart s)))) as [|c l]; [exact I|].
  rewrite E in Ht. exact Ht.
Qed.

End TrimFacts.

(** ** Requests, once more *)

Section RequestDichotomy.

Import Requests.

Lemma invalid_has_violation (p : CreateJiraTicketParams) :
  valid p = false -> exists v, first_violation p v.
Proof.
  unfold valid. intros H.
  destruct (summary_required p) eqn:E1.
  - now exists SummaryRequired.
  - destruct (summary_too_long p) eqn:E2.
    + now exists SummaryTooLong.
    + destruct (description_too_long p) eqn:E3.
      * now exists DescriptionTooLong.
      * discriminate H.
Qed.

Lemma eqs_eq (a b : jsstring) : eqs a b = true <-> a = b.
Proof.
  revert b. induction a as [|x a IH]; intros [|y b]; simpl;
    try (split; [discriminate|discriminate]); [tauto|].
  rewrite andb_true_iff, N.eqb_eq, IH.
  split; [intros [-> ->]; reflexivity|intros H; injection H; auto].
Qed.

End RequestDichotomy.

(** ** The connection check *)

Section ValidateFacts.

Import Requests.

Variable World : Type.
Variable http_get_users :
  jsstring -> World -> World * AxiosResult (option (list JiraUser)).

Lemma Dex_validate_run (st : St World) :
  exists r,
    snd (Dex.validateJiraConnection http_get_users st) = inl r /\
    c_success r = true /\ c_projectAccessible r = true /\
    c_assigneeFound r
    = negb (lookup_fails (snd (http_get_users Dex.ALEX_WALD_EMAIL (world st)))).
Proof.
  unfold Dex.validateJiraConnection.
  destruct (http_get_users Dex.ALEX_WALD_EMAIL (world st)) as [w1 r1] eqn:Hget.
  destruct (getUserByEmail_run http_get_users Dex.ALEX_WALD_EMAIL st
              eq_refl Hget)
    as (res & Hrun & Hres).
  unfold try_catch, bind. rewrite Hrun. cbn [snd].
  destruct res as [u|e]; destruct Hres as [Hf _]; rewrite Hf;
    eexists; (split; [reflexivity|]); repeat split.
Qed.

Lemma Petsmart_validate_run (st : St World) :
  exists r,
    snd (Petsmart.validateJiraConnection http_get_users st) = inl r /\
    c_success r = true /\ c_projectAccessible r = true /\
    c_assigneeFound r
    = negb (lookup_fails
              (snd (http_get_users Petsmart.PETSMART_ASSIGNEE_EMAIL (world st)))).
Proof.
  unfold Petsmart.validateJiraConnection.
  destruct (http_get_users Petsmart.PETSMART_ASSIGNEE_EMAIL (world st))
    as [w1 r1] eqn:Hget.
  destruct (getUserByEmail_run http_get_users
              Petsmart.PETSMART_ASSIGNEE_EMAIL st eq_refl Hget)
    as (res & Hrun & Hres).
  unfold try_catch, bind. rewrite Hrun. cbn [snd].
  destruct res as [u|e]; destruct Hres as [Hf _]; rewrite Hf;
    eexists; (split; [reflexivity|]); repeat split.
Qed.

End ValidateFacts.

(** ** What a match consumes *)

Section MatcherReach.

Import Shapes.

Variable R : Type.

Lemma star_loop_reaches (m : cont R -> cont R) :
  reaches m -> forall fuel, reaches (fun k => star_loop m k fuel).
Proof.
  intros Hm fuel. induction fuel as [|fuel IH]; intros k prev s cs x H.
  - exists prev, s, cs, []. split; [reflexivity|exact H].
  - rewrite star_loop_S in H.
    destruct (m (fun p' s' c' =>
                   if Nat.ltb (length s') (length s)
                   then star_loop m k fuel p' s' c' else None) prev s cs)
      as [y|] eqn:E.
    + injection H as ->.
      apply Hm in E as (p1 & s1 & c1 & pre1 & -> & E).
      destruct (Nat.ltb (length s1) (length (pre1 ++ s1))); [|discriminate].
      apply IH in E as (p2 & s2 & c2 & pre2 & -> & E).
      exists p2, s2, c2, (pre1 ++ pre2).
      split; [now rewrite app_assoc|exact E].
    + exists prev, s, cs, []. split; [reflexivity|exact H].
Qed.

Lemma rmatch_reaches (r : regex) : reaches (@rmatch R r).
Proof.
  induction r as [|c|p|r1 IH1 r2 IH2|r1 IH1 r2 IH2|r IH|r IH|n r IH| |];
    intros k prev s cs x H.
  - exists prev, s, cs, []. split; [reflexivity|exact H].
  - destruct s as [|y s]; simpl in H; [discriminate|].
    destruct (y =? c)%N; [|discriminate].
    exists (Some y), s, cs, [y]. split; [reflexivity|exact H].
  - destruct s as [|y s]; simpl in H; [discriminate|].
    destruct (p y); [|discriminate].
    exists (Some y), s, cs, [y]. split; [reflexivity|exact H].
  - rewrite rmatch_Seq in H.
    apply IH1 in H as (p1 & s1 & c1 & pre1 & -> & H).
    apply IH2 in H as (p2 & s2 & c2 & pre2 & -> & H).
    exists p2, s2, c2, (pre1 ++ pre2).
    split; [now rewrite app_assoc|exact H].
  - simpl in H. destruct (rmatch r1 k prev s cs) as [y|] eqn:E.
    + injection H as ->. now apply IH1 in E.
    + now apply IH2 in H.
  - rewrite rmatch_Star in H.
    exact (star_loop_reaches IH (length s) k prev s cs H).
  - rewrite rmatch_Plus in H.
    apply IH in H as (p1 & s1 & c1 & pre1 & -> & H).
    apply (star_loop_reaches IH (length s1)) in H
      as (p2 & s2 & c2 & pre2 & -> & H).
    exists p2, s2, c2, (pre1 ++ pre2).
    split; [now rewrite app_assoc|exact H].
  - rewrite rmatch_Grp in H.
    apply IH in H as (p1 & s1 & c1 & pre1 & -> & H).
    eexists p1, s1, _, pre1. split; [reflexivity|exact H].
  - rewrite rmatch_BolM in H.
    exists prev, s, cs, []. split; [reflexivity|].
    destruct prev as [q|]; [destruct (isLineTerminator q)|];
      congruence.
  - rewrite rmatch_EolM in H.
    exists prev, s, cs, []. split; [reflexivity|].
    destruct s as [|q s]; [|destruct (isLineTerminator q)]; congruence.
Qed.

End MatcherReach.

(** ** Text the conversion leaves alone, and the emoji table *)

Section ConversionMore.

Import Petsmart Checklist Shapes.

(** A match of the checkbox expression needs a [[]. *)
Lemma checkbox_needs_bracket prev s y :
  match_here checkbox_re prev s = Some y -> In (ch "[") s.
Proof.
  unfold match_here, checkbox_re. intros H.
  rewrite rmatch_Seq in H.
  apply rmatch_reaches in H as (p1 & s1 & c1 & pre1 & -> & H).
  rewrite rmatch_Seq in H.
  apply rmatch_reaches in H as (p2 & s2 & c2 & pre2 & -> & H).
  rewrite rmatch_Seq in H.
  apply rmatch_reaches in H as (p3 & s3 & c3 & pre3 & -> & H).
  rewrite rmatch_Seq in H.
  apply rmatch_reaches in H as (p4 & s4 & c4 & pre4 & -> & H).
  rewrite rmatch_Seq in H.
  destruct s4 as [|c s4]; [discriminate H|].
  cbn [rmatch] in H.
  destruct (c =? ch "[")%N eqn:E; [|discriminate H].
  apply N.eqb_eq in E. subst c.
  rewrite !in_app_iff. do 4 right. now left.
Qed.

Lemma no_bracket_not_In (s : jsstring) :
  no_bracket s = true -> ~ In (ch "[") s.
Proof.
  unfold no_bracket. rewrite forallb_forall. intros H Hin.
  specialize (H _ Hin). now rewrite N.eqb_refl in H.
Qed.

Lemma no_bracket_app (a b : jsstring) :
  no_bracket (a ++ b) = no_bracket a && no_bracket b.
Proof. apply forallb_app. Qed.

Lemma checkbox_step_no_bracket (s : jsstring) :
  forall prev,
    no_bracket s = true ->
    replace_loop checkbox_re checkbox_replacer 0 prev s = s.
Proof.
  induction s as [|c t IH]; intros prev Hs.
  - apply replace_loop_miss_nil, ChecklistFacts.checkbox_nil.
  - rewrite replace_loop_miss.
    + f_equal. apply IH. simpl in Hs. now apply andb_true_iff in Hs.
    + destruct (match_here checkbox_re prev (c :: t)) as [y|] eqn:E;
        [|reflexivity].
      apply checkbox_needs_bracket in E.
      now apply no_bracket_not_In in Hs.
Qed.

(** A match of the emoji expression starts with U+F8FF or U+201A. *)
Lemma emoji_miss prev c t :
  (c =? 0xf8ff)%N = false -> (c =? 0x201a)%N = false ->
  match_here emoji_re prev (c :: t) = None.
Proof.
  intros H1 H2. unfold match_here. cbn.
  rewrite ?H1, ?H2. reflexivity.
Qed.

Lemma emoji_nil prev : match_here emoji_re prev [] = None.
Proof. reflexivity. Qed.

Lemma emoji_scan_prefix (a : jsstring) :
  forall prev rest,
    no_emoji_lead a = true ->
    replace_loop emoji_re emoji_replacer 0 prev (a ++ rest)
    = a ++ replace_loop emoji_re emoji_replacer 0 (prev_after prev a) rest.
Proof.
  induction a as [|c a IH]; intros prev rest Ha; [reflexivity|].
  simpl in Ha. apply andb_true_iff in Ha as [Hc Ha].
  apply andb_true_iff in Hc as [H1 H2].
  apply negb_true_iff in H1, H2.
  simpl app. rewrite replace_loop_miss by now apply emoji_miss.
  rewrite IH by assumption.
  now rewrite <- (prev_after_cons prev c a).
Qed.

Lemma emoji_step_plain (s : jsstring) prev :
  no_emoji_lead s = true ->
  replace_loop emoji_re emoji_replacer 0 prev s = s.
Proof.
  intros Hs. rewrite <- (app_nil_r s) at 1.
  rewrite emoji_scan_prefix by assumption.
  rewrite replace_loop_miss_nil by apply emoji_nil.
  apply app_nil_r.
Qed.

(** A match that takes a non-empty [m] off the input is replaced and the
    scan resumes after it. *)
Lemma replace_loop_hit_app r f prev (m rest : jsstring) cs :
  m <> [] ->
  match_here r prev (m ++ rest) = Some (rest, cs) ->
  replace_loop r f 0 prev (m ++ rest)
  = f m cs ++ replace_loop r f 0 (prev_after prev m) rest.
Proof.
  intros Hm H. destruct m as [|c t]; [contradiction|].
  simpl app in *.
  rewrite replace_loop_hit with (s' := rest) (cs := cs) (n := length t).
  - rewrite firstn_length_cons_app_n, replace_loop_skip_app.
    now rewrite <- (prev_after_cons prev c t).
  - exact H.
  - change (c :: t ++ rest) with ((c :: t) ++ rest).
    rewrite length_app. simpl length. lia.
Qed.

(** The match of the checkbox expression on an item in its general form,
    at the start of a line. *)
Lemma checkbox_loose_match prev ws1 b ws2 m ws3 t rest :
  at_bol prev = true ->
  forallb isSpace ws1 = true -> forallb isSpace ws2 = true ->
  forallb isSpace ws3 = true ->
  isDashOrStar b = true -> isBlankOrX m = true -> text_ok t = true ->
  at_eol rest = true ->
  match_here checkbox_re prev
    (ws1 ++ b :: ws2 ++ ch "[" :: m :: ch "]" :: ws3 ++ t ++ rest)
  = Some (rest, [(2, t); (1, [m])]).
Proof.
  intros Hbol H1 H2 H3 Hb Hm Ht Heol.
  destruct (ChecklistFacts.text_ok_inv _ Ht) as (c & t' & -> & Hc & Hd).
  simpl in Hd. apply andb_true_iff in Hd as [Hcd Hd].
  assert (Hbs : isSpace b = false).
  { apply orb_true_iff in Hb as [Hb|Hb]; apply N.eqb_eq in Hb; subst b;
      reflexivity. }
  unfold match_here, checkbox_re.
  rewrite rmatch_Seq, ChecklistFacts.rmatch_BolM_at_bol by exact Hbol.
  rewrite rmatch_Seq, rmatch_Star.
  apply (star_class_greedy isSpace _ ws1);
    [exact H1|exact Hbs|rewrite length_app; lia|].
  rewrite rmatch_Seq, rmatch_Cls_cons, Hb.
  rewrite rmatch_Seq, rmatch_Star.
  apply (star_class_greedy isSpace _ ws2);
    [exact H2|reflexivity|rewrite length_app; lia|].
  rewrite rmatch_Seq, rmatch_Chr_cons.
  rewrite rmatch_Seq, rmatch_Grp, rmatch_Cls_cons, Hm.
  rewrite firstn_length_cons.
  rewrite rmatch_Seq, rmatch_Chr_cons.
  rewrite rmatch_Seq, rmatch_Star.
  apply (star_class_greedy isSpace _ ws3);
    [exact H3|exact Hc|rewrite length_app; lia|].
  simpl app.
  rewrite rmatch_Seq, rmatch_Grp, rmatch_Plus, rmatch_Cls_cons, Hcd.
  apply (star_class_greedy isDot _ t'); try assumption.
  { destruct rest as [|x rest]; [exact I|].
    simpl in Heol. unfold isDot. now rewrite Heol. }
  { rewrite length_app. lia. }
  rewrite firstn_length_cons_app.
  rewrite rmatch_EolM.
  destruct rest as [|x rest]; [reflexivity|].
  simpl in Heol. rewrite Heol. reflexivity.
Qed.

End ConversionMore.

(** ** The tools, the client and the routes *)

Section Extras.

Import Requests Fixtures Shapes Index.

(** X1.  Every request is either rejected by validation, with one of the
    three messages and without any call, or it makes exactly two calls, the
    user search and then the post: there is no third course, and no call is
    repeated.  Both deployments. *)
Theorem X1_rejected_without_call_or_two_calls :
  forall (World : Type)
         (http_get_users :
            jsstring -> World -> World * AxiosResult (option (list JiraUser)))
         (http_post_issue :
            CreateIssueRequest -> World ->
            World * AxiosResult CreateIssueResponse)
         (env_JIRA_BASE_URL : option jsstring)
         (p : CreateJiraTicketParams) (st : St World),
    (valid p = false /\
     exists v,
       Dex.createJiraTicket http_get_users http_post_issue
                            env_JIRA_BASE_URL p st
       = (st, inr (newError (violation_message v))) /\
       Petsmart.createJiraTicket http_get_users http_post_issue
                                 env_JIRA_BASE_URL p st
       = (st, inr (newError (violation_message v))))
    \/
    (valid p = true /\
     (exists body,
         calls (fst (Dex.createJiraTicket http_get_users http_post_issue
                       env_JIRA_BASE_URL p st))
         = calls st ++ [GetUserSearch Dex.ALEX_WALD_EMAIL; PostIssue body]) /\
     (exists body,
         calls (fst (Petsmart.createJiraTicket http_get_users http_post_issue
                       env_JIRA_BASE_URL p st))
         = calls st ++ [GetUserSearch Petsmart.PETSMART_ASSIGNEE_EMAIL;
                        PostIssue body])).
Proof.
  intros World get post env p st.
  destruct (valid p) eqn:Hvalid.
  - right. split; [reflexivity|]. split.
    + destruct (get Dex.ALEX_WALD_EMAIL (world st)) as [w1 r1] eqn:Hget.
      destruct (post (dex_body p r1) w1) as [w2 r2] eqn:Hpost.
      rewrite (Dex_run get post env p st Hvalid Hget Hpost).
      eexists. reflexivity.
    + destruct (get Petsmart.PETSMART_ASSIGNEE_EMAIL (world st))
        as [w1 r1] eqn:Hget.
      destruct (post (petsmart_body p r1) w1) as [w2 r2] eqn:Hpost.
      rewrite (Petsmart_run get post env p st Hvalid Hget Hpost).
      eexists. reflexivity.
  - left. split; [reflexivity|].
    destruct (invalid_has_violation p Hvalid) as [v Hv].
    exists v. split.
    + now apply Dex_rejects.
    + now apply Petsmart_rejects.
Qed.



(** X4.  [GET /health] always answers 200 with status "healthy" and a
    [jira] report whose [success] is true, whatever the provider does; the
    500 "unhealthy" answer of the handler is never sent.  Both
    deployments. *)
Theorem X4_health_route_always_healthy :
  forall (World : Type)
         (http_get_users :
            jsstring -> World -> World * AxiosResult (option (list JiraUser)))
         (now : jsstring) (st : St World),
    (exists jira,
        snd (healthHandler (Dex.validateJiraConnection http_get_users) now st)
        = inl {| code := 200;
                 json := {| h_status := lit "healthy";
                            h_timestamp := now;
                            h_jira := Some jira;
                            h_error := None |} |} /\
        c_success jira = true)
    /\
    (exists jira,
        snd (healthHandler (Petsmart.validateJiraConnection http_get_users)
               now st)
        = inl {| code := 200;
                 json := {| h_status := lit "healthy";
                            h_timestamp := now;
                            h_jira := Some jira;
                            h_error := None |} |} /\
        c_success jira = true).
Proof.
  intros World get now st.
  destruct (Dex_validate_run get st) as (r1 & E1 & S1 & _).
  destruct (Petsmart_validate_run get st) as (r2 & E2 & S2 & _).
  unfold healthHandler, try_catch, bind. split.
  - destruct (Dex.validateJiraConnection get st) as [st1 res1].
    cbn [snd] in E1. subst res1. exists r1. split; [reflexivity|exact S1].
  - destruct (Petsmart.validateJiraConnection get st) as [st2 res2].
    cbn [snd] in E2. subst res2. exists r2. split; [reflexivity|exact S2].
Qed.

(** X5.  The bearer-token middleware.  Without a configured token (the
    variable unset or empty) no middleware is installed, a warning is
    written at start-up and every request passes.  With a token, a request
    passes exactly when its [authorization] header is the string "Bearer "
    followed by the token, code unit for code unit; any other header, or
    none, is answered with 401 "Unauthorized". *)
Theorem X5_bearer_token_gate :
  forall (env_BEARER_TOKEN authorization : option jsstring),
    (truthy_opt env_BEARER_TOKEN = false ->
     toolGate env_BEARER_TOKEN authorization = Next /\
     snd (installAuth env_BEARER_TOKEN)
     = [lit "WARNING: No BEARER_TOKEN configured. Tool endpoints will be unprotected."])
    /\
    (forall token,
        env_BEARER_TOKEN = Some token -> truthy token = true ->
        snd (installAuth env_BEARER_TOKEN) = [] /\
        (toolGate env_BEARER_TOKEN authorization = Next <->
         authorization = Some (lit "Bearer " ++ token)) /\
        (authorization <> Some (lit "Bearer " ++ token) ->
         toolGate env_BEARER_TOKEN authorization
         = Respond
             {| code := 401;
                json := {| e_error := lit "Unauthorized";
                           e_message :=
                             lit "Valid bearer token required for tool execution" |} |})).
Proof.
  intros env authorization. split.
  - intros H. unfold toolGate, installAuth.
    destruct env as [[|c t]|]; try discriminate H; split; reflexivity.
  - intros token -> Htoken. unfold toolGate, installAuth. rewrite Htoken.
    cbn [fst snd]. split; [reflexivity|].
    unfold authMiddleware.
    destruct authorization as [h|]; cbn [truthy_opt].
    + destruct (eqs h (lit "Bearer " ++ token)) eqn:E.
      * apply eqs_eq in E. subst h. cbn [negb orb]. simpl truthy.
        split; [split; reflexivity|]. intros H. now elim H.
      * assert (Hne : h <> lit "Bearer " ++ token).
        { intros ->. assert (E' : eqs (lit "Bearer " ++ token)
                                      (lit "Bearer " ++ token) = true)
            by now apply eqs_eq.
          congruence. }
        cbn [negb]. rewrite orb_true_r.
        split; [split; [discriminate|]|reflexivity].
        intros H. injection H as ->. now elim Hne.
    + cbn [negb orb]. split; [split; discriminate|reflexivity].
Qed.

Lemma X5_witness :
  truthy (lit "s3cret") = true /\
  toolGate (Some (lit "s3cret")) (Some (lit "Bearer s3cret")) = Next /\
  toolGate (Some (lit "s3cret")) (Some (lit "bearer s3cret"))
  = Respond
      {| code := 401;
         json := {| e_error := lit "Unauthorized";
                    e_message :=
                      lit "Valid bearer token required for tool execution" |} |}.
Proof.
  split; [reflexivity|].
  pose proof (proj2 (X5_bearer_token_gate (Some (lit "s3cret"))
                       (Some (lit "Bearer s3cret")))
                    (lit "s3cret") eq_refl eq_refl) as (_ & Hiff & _).
  pose proof (proj2 (X5_bearer_token_gate (Some (lit "s3cret"))
                       (Some (lit "bearer s3cret")))
                    (lit "s3cret") eq_refl eq_refl) as (_ & _ & Hrej).
  split.
  - apply Hiff. reflexivity.
  - apply Hrej. discriminate.
Defined.

(** X6.  [createIssueWithText] without an assignee email (absent or empty)
    makes a single call, the post: no user is searched, nothing is written
    to the console, and the body has no assignee.  The description field is
    present exactly when a non-empty description was given. *)
Theorem X6_createIssueWithText_without_assignee :
  forall (World : Type)
         (http_get_users :
            jsstring -> World -> World * AxiosResult (option (list JiraUser)))
         (http_post_issue :
            CreateIssueRequest -> World ->
            World * AxiosResult CreateIssueResponse)
         (projectKey issueType summ : jsstring)
         (desc assigneeEmail : option jsstring) (st : St World),
    truthy_opt assigneeEmail = false ->
    let body :=
      {| project_key := projectKey;
         summary := summ;
         description :=
           match desc with
           | Some d => if truthy d then Some (one_paragraph d) else None
           | None => None
           end;
         issuetype_name := issueType;
         assignee_accountId := None |} in
    createIssueWithText http_get_users http_post_issue
                        projectKey issueType summ desc assigneeEmail st
    = ({| world := fst (http_post_issue body (world st));
          calls := calls st ++ [PostIssue body];
          console := console st |},
       match snd (http_post_issue body (world st)) with
       | Resolved d => inl d
       | Rejected e => inr (interceptor e)
       end).
Proof.
  intros World get post key type summ desc email st Hemail body.
  assert (Hbody :
    (if truthy_opt desc
     then {| project_key := key; summary := summ;
             description := option_map createDescriptionADF desc;
             issuetype_name := type; assignee_accountId := None |}
     else {| project_key := key; summary := summ; description := None;
             issuetype_name := type; assignee_accountId := None |})
    = body).
  { unfold body. destruct desc as [d|]; simpl; [|reflexivity].
    destruct (truthy d); reflexivity. }
  unfold createIssueWithText.
  simpl JiraClientModel.summary. simpl project_key. simpl issuetype_name.
  simpl JiraClientModel.description. simpl assignee_accountId.
  rewrite Hbody.
  assert (Hret :
    match email with
    | Some e =>
        if truthy e
        then try_catch
               (bind (getUserByEmail get e) (fun user =>
                  ret {| project_key := project_key body;
                         summary := JiraClientModel.summary body;
                         description := JiraClientModel.description body;
                         issuetype_name := issuetype_name body;
                         assignee_accountId := Some (accountId user) |}))
               (fun _ =>
                  bind (console_warn
                          (lit "Warning: Could not find user " ++ e ++
                           lit ", creating ticket without assignee"))
                       (fun _ => ret body))
        else ret body
    | None => ret body
    end = ret body).
  { destruct email as [e|]; [|reflexivity].
    simpl in Hemail. now rewrite Hemail. }
  rewrite Hret.
  unfold bind, ret, createIssue, try_catch, client_post_issue.
  destruct (post body (world st)) as [w2 r2]. cbn [fst snd].
  destruct st as [w cs con]. cbn [world calls console].
  destruct r2 as [d|e]; [reflexivity|].
  destruct (interceptor_JiraClientError e) as (m & c & E).
  rewrite E. reflexivity.
Qed.

Lemma X6_witness :
  truthy_opt (Some []) = false /\
  createIssueWithText users_found post_created
    (lit "DHK") (lit "Task") (lit "Tidy up") (Some []) (Some []) st0
  = ({| world := tt;
        calls := [PostIssue {| project_key := lit "DHK";
                               summary := lit "Tidy up";
                               description := None;
                               issuetype_name := lit "Task";
                               assignee_accountId := None |}];
        console := [] |},
     inl created).
Proof.
  split; [reflexivity|].
  exact (@X6_createIssueWithText_without_assignee unit users_found
           post_created (lit "DHK") (lit "Task") (lit "Tidy up")
           (Some []) (Some []) st0 eq_refl).
Defined.

(** X7.  The summary of the posted issue is the trimmed summary of the
    request: for every valid request it is not empty, at most 255 code
    units long, and neither starts nor ends with white space.  Both
    deployments. *)
Theorem X7_posted_summary_is_trimmed_and_bounded :
  forall (World : Type)
         (http_get_users :
            jsstring -> World -> World * AxiosResult (option (list JiraUser)))
         (http_post_issue :
            CreateIssueRequest -> World ->
            World * AxiosResult CreateIssueResponse)
         (env_JIRA_BASE_URL : option jsstring)
         (p : CreateJiraTicketParams) (st : St World),
    valid p = true ->
    (exists body,
        calls (fst (Dex.createJiraTicket http_get_users http_post_issue
                      env_JIRA_BASE_URL p st))
        = calls st ++ [GetUserSearch Dex.ALEX_WALD_EMAIL; PostIssue body] /\
        summary body = trim (summary_of p) /\
        summary body <> [] /\
        (N.of_nat (length (summary body)) <= 255)%N /\
        starts_clean (summary body) /\
        starts_clean (rev (summary body)))
    /\
    (exists body,
        calls (fst (Petsmart.createJiraTicket http_get_users http_post_issue
                      env_JIRA_BASE_URL p st))
        = calls st ++ [GetUserSearch Petsmart.PETSMART_ASSIGNEE_EMAIL;
                       PostIssue body] /\
        summary body = trim (summary_of p) /\
        summary body <> [] /\
        (N.of_nat (length (summary body)) <= 255)%N /\
        starts_clean (summary body) /\
        starts_clean (rev (summary body))).
Proof.
  intros World get post env p st Hvalid.
  destruct (valid_inv p Hvalid) as (s & Es & H1 & H2 & _).
  assert (Hs : summary_of p = s) by (unfold summary_of; now rewrite Es).
  assert (Hne : trim s <> []).
  { unfold summary_required in H1. rewrite Es in H1.
    intros E. rewrite E in H1. discriminate H1. }
  assert (Hlen : (N.of_nat (length (trim s)) <= 255)%N).
  { unfold summary_too_long in H2. rewrite Es in H2.
    apply N.ltb_ge in H2. pose proof (trim_length s). lia. }
  split.
  - destruct (get Dex.ALEX_WALD_EMAIL (world st)) as [w1 r1] eqn:Hget.
    destruct (post (dex_body p r1) w1) as [w2 r2] eqn:Hpost.
    rewrite (Dex_run get post env p st Hvalid Hget Hpost).
    exists (dex_body p r1). split; [reflexivity|].
    unfold dex_body, issue_body. cbn [summary]. rewrite Hs.
    repeat split; try assumption.
    + apply trim_starts_clean.
    + apply trim_ends_clean.
  - destruct (get Petsmart.PETSMART_ASSIGNEE_EMAIL (world st))
      as [w1 r1] eqn:Hget.
    destruct (post (petsmart_body p r1) w1) as [w2 r2] eqn:Hpost.
    rewrite (Petsmart_run get post env p st Hvalid Hget Hpost).
    exists (petsmart_body p r1). split; [reflexivity|].
    unfold petsmart_body, issue_body. cbn [summary]. rewrite Hs.
    repeat split; try assumption.
    + apply trim_starts_clean.
    + apply trim_ends_clean.
Qed.

Lemma X7_witness :
  valid request_ok = true /\
  exists body,
    calls (fst (Dex.createJiraTicket users_found post_created base_url
                  request_ok st0))
    = calls st0 ++ [GetUserSearch Dex.ALEX_WALD_EMAIL; PostIssue body] /\
    summary body = trim (summary_of request_ok) /\
    summary body <> [] /\
    (N.of_nat (length (summary body)) <= 255)%N /\
    starts_clean (summary body) /\
    starts_clean (rev (summary body)).
Proof.
  assert (H : valid request_ok = true) by (vm_compute; reflexivity).
  split; [exact H|].
  exact (proj1 (X7_posted_summary_is_trimmed_and_bounded
                  users_found post_created base_url request_ok st0 H)).
Defined.

(** X8.  In the DEX deployment the text of a posted description is the
    trimmed description of the request: whenever the body of a valid
    request has a description, it is one paragraph with one run of text
    that is not empty, at most 32767 code units long, and neither starts
    nor ends with white space. *)
Theorem X8_dex_posted_description_is_trimmed_and_bounded :
  forall (World : Type)
         (http_get_users :
            jsstring -> World -> World * AxiosResult (option (list JiraUser)))
         (http_post_issue :
            CreateIssueRequest -> World ->
            World * AxiosResult CreateIssueResponse)
         (env_JIRA_BASE_URL : option jsstring)
         (p : CreateJiraTicketParams) (st : St World),
    valid p = true ->
    exists body,
      calls (fst (Dex.createJiraTicket http_get_users http_post_issue
                    env_JIRA_BASE_URL p st))
      = calls st ++ [GetUserSearch Dex.ALEX_WALD_EMAIL; PostIssue body] /\
      forall doc,
        description body = Some doc ->
        exists d,
          p_description p = Some d /\
          doc = one_paragraph (trim d) /\
          trim d <> [] /\
          (N.of_nat (length (trim d)) <= 32767)%N /\
          starts_clean (trim d) /\
          starts_clean (rev (trim d)).
Proof.
  intros World get post env p st Hvalid.
  destruct (valid_inv p Hvalid) as (s & Es & _ & _ & H3).
  destruct (get Dex.ALEX_WALD_EMAIL (world st)) as [w1 r1] eqn:Hget.
  destruct (post (dex_body p r1) w1) as [w2 r2] eqn:Hpost.
  rewrite (Dex_run get post env p st Hvalid Hget Hpost).
  exists (dex_body p r1). split; [reflexivity|].
  unfold dex_body, issue_body. cbn [description].
  unfold description_too_long in H3.
  destruct (p_description p) as [d|]; cbn [option_map]; [|discriminate].
  destruct (trim d) as [|c t] eqn:Et; cbn [truthy]; [discriminate|].
  intros doc Hdoc. injection Hdoc as <-.
  exists d. rewrite Et. repeat split.
  - discriminate.
  - apply N.ltb_ge in H3. pose proof (trim_length d) as Hl.
    rewrite Et in Hl. lia.
  - pose proof (trim_starts_clean d) as Hc. now rewrite Et in Hc.
  - pose proof (trim_ends_clean d) as Hc. now rewrite Et in Hc.
Qed.

Lemma X8_witness :
  valid request_ok = true /\
  exists body,
    calls (fst (Dex.createJiraTicket users_found post_created base_url
                  request_ok st0))
    = calls st0 ++ [GetUserSearch Dex.ALEX_WALD_EMAIL; PostIssue body] /\
    forall doc,
      description body = Some doc ->
      exists d,
        p_description request_ok = Some d /\
        doc = one_paragraph (trim d) /\
        trim d <> [] /\
        (N.of_nat (length (trim d)) <= 32767)%N /\
        starts_clean (trim d) /\
        starts_clean (rev (trim d)).
Proof.
  assert (H : valid request_ok = true) by (vm_compute; reflexivity).
  split; [exact H|].
  exact (X8_dex_posted_description_is_trimmed_and_bounded
           users_found post_created base_url request_ok st0 H).
Defined.

(** X9.  When the user search resolves no account and the post the run
    makes resolves, a valid request succeeds with the same message as if
    the assignee had been set: the DEX message still says "The ticket has
    been assigned to Alex Wald", although the body was posted without
    assignee.  The only trace of the failed search is one line on the
    console, "Warning: Could not find user E, creating ticket without
    assignee".  Both deployments, each with its own message. *)
Theorem X9_success_message_ignores_failed_lookup :
  forall (World : Type)
         (http_get_users :
            jsstring -> World -> World * AxiosResult (option (list JiraUser)))
         (http_post_issue :
            CreateIssueRequest -> World ->
            World * AxiosResult CreateIssueResponse)
         (env_JIRA_BASE_URL : option jsstring)
         (p : CreateJiraTicketParams) (st : St World)
         (resp : CreateIssueResponse),
    valid p = true ->
    (let run := Dex.createJiraTicket http_get_users http_post_issue
                  env_JIRA_BASE_URL p st in
     let r1 := snd (http_get_users Dex.ALEX_WALD_EMAIL (world st)) in
     let w1 := fst (http_get_users Dex.ALEX_WALD_EMAIL (world st)) in
     let body := dex_body p r1 in
     lookup_fails r1 = true ->
     snd (http_post_issue body w1) = Resolved resp ->
     calls (fst run)
     = calls st ++ [GetUserSearch Dex.ALEX_WALD_EMAIL; PostIssue body] /\
     assignee_accountId body = None /\
     console (fst run)
     = console st ++
       [lit "Warning: Could not find user alex.wald@optimizely.com, creating ticket without assignee"] /\
     exists t,
       snd run = inl t /\
       message t
       = lit "Successfully created JIRA ticket " ++ resp_key resp ++
         lit " in DEX project. The ticket has been assigned to Alex Wald and can be viewed at " ++
         ticketUrl t)
    /\
    (let run := Petsmart.createJiraTicket http_get_users http_post_issue
                  env_JIRA_BASE_URL p st in
     let r1 :=
       snd (http_get_users Petsmart.PETSMART_ASSIGNEE_EMAIL (world st)) in
     let w1 :=
       fst (http_get_users Petsmart.PETSMART_ASSIGNEE_EMAIL (world st)) in
     let body := petsmart_body p r1 in
     lookup_fails r1 = true ->
     snd (http_post_issue body w1) = Resolved resp ->
     calls (fst run)
     = calls st ++ [GetUserSearch Petsmart.PETSMART_ASSIGNEE_EMAIL;
                    PostIssue body] /\
     assignee_accountId body = None /\
     console (fst run)
     = console st ++
       [lit "Warning: Could not find user oruhland@petsmart.com, creating ticket without assignee"] /\
     exists t,
       snd run = inl t /\
       message t
       = lit "Successfully created JIRA ticket " ++ resp_key resp ++
         lit " in Petsmart DTO project. Attempted to assign to oruhland@petsmart.com. Check the ticket to verify assignment. View at " ++
         ticketUrl t).
Proof.
  intros World get post env p st resp Hvalid. split; cbv zeta.
  - destruct (get Dex.ALEX_WALD_EMAIL (world st)) as [w1 r1] eqn:Hget.
    cbn [fst snd]. intros Hfail.
    destruct (post (dex_body p r1) w1) as [w2 r2] eqn:Hpost.
    cbn [snd]. intros ->.
    rewrite (Dex_run get post env p st Hvalid Hget Hpost).
    cbn [fst snd after_calls calls console].
    unfold lookup_warning. rewrite Hfail.
    split; [reflexivity|]. split.
    { unfold dex_body, issue_body. cbn [assignee_accountId].
      now apply lookup_fails_no_account. }
    split; [reflexivity|]. eexists. split; reflexivity.
  - destruct (get Petsmart.PETSMART_ASSIGNEE_EMAIL (world st))
      as [w1 r1] eqn:Hget.
    cbn [fst snd]. intros Hfail.
    destruct (post (petsmart_body p r1) w1) as [w2 r2] eqn:Hpost.
    cbn [snd]. intros ->.
    rewrite (Petsmart_run get post env p st Hvalid Hget Hpost).
    cbn [fst snd after_calls calls console].
    unfold lookup_warning. rewrite Hfail.
    split; [reflexivity|]. split.
    { unfold petsmart_body, issue_body. cbn [assignee_accountId].
      now apply lookup_fails_no_account. }
    split; [reflexivity|]. eexists. split; reflexivity.
Qed.

Lemma X9_witness :
  valid request_ok = true /\
  lookup_fails (snd (users_none Dex.ALEX_WALD_EMAIL (world st0))) = true /\
  snd (post_created
         (dex_body request_ok (snd (users_none Dex.ALEX_WALD_EMAIL (world st0))))
         (fst (users_none Dex.ALEX_WALD_EMAIL (world st0))))
  = Resolved created /\
  console (fst (Dex.createJiraTicket users_none post_created base_url
                  request_ok st0))
  = console st0 ++
    [lit "Warning: Could not find user alex.wald@optimizely.com, creating ticket without assignee"] /\
  exists t,
    snd (Dex.createJiraTicket users_none post_created base_url
           request_ok st0) = inl t /\
    message t
    = lit "Successfully created JIRA ticket " ++ resp_key created ++
      lit " in DEX project. The ticket has been assigned to Alex Wald and can be viewed at " ++
      ticketUrl t.
Proof.
  assert (H : valid request_ok = true) by (vm_compute; reflexivity).
  split; [exact H|]. split; [reflexivity|]. split; [reflexivity|].
  destruct (proj1 (@X9_success_message_ignores_failed_lookup unit users_none
                     post_created base_url request_ok st0 created H)
                  eq_refl eq_refl) as (_ & _ & Hcon & Ht).
  split; [exact Hcon|exact Ht].
Defined.

(** X10.  Nothing is remembered between two runs: the same valid request
    run twice searches the user twice and posts twice, whatever the first
    run ended in, and the two bodies agree on project, summary,
    description and issue type (the assignee is resolved anew).  Both
    deployments. *)
Theorem X10_second_run_posts_again :
  forall (World : Type)
         (http_get_users :
            jsstring -> World -> World * AxiosResult (option (list JiraUser)))
         (http_post_issue :
            CreateIssueRequest -> World ->
            World * AxiosResult CreateIssueResponse)
         (env_JIRA_BASE_URL : option jsstring)
         (p : CreateJiraTicketParams) (st : St World),
    valid p = true ->
    (let run1 := Dex.createJiraTicket http_get_users http_post_issue
                   env_JIRA_BASE_URL p st in
     let run2 := Dex.createJiraTicket http_get_users http_post_issue
                   env_JIRA_BASE_URL p (fst run1) in
     exists b1 b2,
       calls (fst run2)
       = calls st ++ [GetUserSearch Dex.ALEX_WALD_EMAIL; PostIssue b1;
                      GetUserSearch Dex.ALEX_WALD_EMAIL; PostIssue b2] /\
       project_key b1 = project_key b2 /\
       summary b1 = summary b2 /\
       description b1 = description b2 /\
       issuetype_name b1 = issuetype_name b2)
    /\
    (let run1 := Petsmart.createJiraTicket http_get_users http_post_issue
                   env_JIRA_BASE_URL p st in
     let run2 := Petsmart.createJiraTicket http_get_users http_post_issue
                   env_JIRA_BASE_URL p (fst run1) in
     exists b1 b2,
       calls (fst run2)
       = calls st ++ [GetUserSearch Petsmart.PETSMART_ASSIGNEE_EMAIL;
                      PostIssue b1;
                      GetUserSearch Petsmart.PETSMART_ASSIGNEE_EMAIL;
                      PostIssue b2] /\
       project_key b1 = project_key b2 /\
       summary b1 = summary b2 /\
       description b1 = description b2 /\
       issuetype_name b1 = issuetype_name b2).
Proof.
  intros World get post env p st Hvalid. split; cbv zeta.
  - destruct (get Dex.ALEX_WALD_EMAIL (world st)) as [w1 r1] eqn:Hget.
    destruct (post (dex_body p r1) w1) as [w2 r2] eqn:Hpost.
    rewrite (Dex_run get post env p st Hvalid Hget Hpost). cbn [fst].
    destruct (get Dex.ALEX_WALD_EMAIL w2) as [w3 r3] eqn:Hget2.
    destruct (post (dex_body p r3) w3) as [w4 r4] eqn:Hpost2.
    rewrite (Dex_run get post env p
               (after_calls st w2 Dex.ALEX_WALD_EMAIL r1 (dex_body p r1))
               Hvalid Hget2 Hpost2).
    exists (dex_body p r1), (dex_body p r3).
    cbn [fst after_calls calls]. rewrite <- app_assoc.
    repeat split.
  - destruct (get Petsmart.PETSMART_ASSIGNEE_EMAIL (world st))
      as [w1 r1] eqn:Hget.
    destruct (post (petsmart_body p r1) w1) as [w2 r2] eqn:Hpost.
    rewrite (Petsmart_run get post env p st Hvalid Hget Hpost). cbn [fst].
    destruct (get Petsmart.PETSMART_ASSIGNEE_EMAIL w2) as [w3 r3] eqn:Hget2.
    destruct (post (petsmart_body p r3) w3) as [w4 r4] eqn:Hpost2.
    rewrite (Petsmart_run get post env p
               (after_calls st w2 Petsmart.PETSMART_ASSIGNEE_EMAIL r1
                            (petsmart_body p r1))
               Hvalid Hget2 Hpost2).
    exists (petsmart_body p r1), (petsmart_body p r3).
    cbn [fst after_calls calls]. rewrite <- app_assoc.
    repeat split.
Qed.

Lemma X10_witness :
  valid request_ok = true /\
  exists b1 b2,
    calls (fst (Dex.createJiraTicket users_found post_created base_url
                  request_ok
                  (fst (Dex.createJiraTicket users_found post_created
                          base_url request_ok st0))))
    = calls st0 ++ [GetUserSearch Dex.ALEX_WALD_EMAIL; PostIssue b1;
                    GetUserSearch Dex.ALEX_WALD_EMAIL; PostIssue b2] /\
    project_key b1 = project_key b2 /\
    summary b1 = summary b2 /\
    description b1 = description b2 /\
    issuetype_name b1 = issuetype_name b2.
Proof.
  assert (H : valid request_ok = true) by (vm_compute; reflexivity).
  split; [exact H|].
  exact (proj1 (X10_second_run_posts_again users_found post_created base_url
                  request_ok st0 H)).
Defined.

(** X11.  When the post a valid request makes gets no response, the
    error thrown is "Failed to create JIRA ticket in DEX project: Network
    error: Unable to reach JIRA server" in both deployments, whatever the
    message of the axios error was: a timeout and an unreachable host cannot
    be told apart from the text (the Petsmart deployment names the DEX
    project here too).  The run is the user search and that one post. *)
Theorem X11_no_response_text_is_fixed :
  forall (World : Type)
         (http_get_users :
            jsstring -> World -> World * AxiosResult (option (list JiraUser)))
         (http_post_issue :
            CreateIssueRequest -> World ->
            World * AxiosResult CreateIssueResponse)
         (env_JIRA_BASE_URL : option jsstring)
         (p : CreateJiraTicketParams) (st : St World) (m : jsstring),
    valid p = true ->
    (let run := Dex.createJiraTicket http_get_users http_post_issue
                  env_JIRA_BASE_URL p st in
     let w1 := fst (http_get_users Dex.ALEX_WALD_EMAIL (world st)) in
     let body :=
       dex_body p (snd (http_get_users Dex.ALEX_WALD_EMAIL (world st))) in
     snd (http_post_issue body w1) = Rejected (HasRequest m) ->
     calls (fst run)
     = calls st ++ [GetUserSearch Dex.ALEX_WALD_EMAIL; PostIssue body] /\
     snd run
     = inr (newError
              (lit "Failed to create JIRA ticket in DEX project: Network error: Unable to reach JIRA server")))
    /\
    (let run := Petsmart.createJiraTicket http_get_users http_post_issue
                  env_JIRA_BASE_URL p st in
     let w1 :=
       fst (http_get_users Petsmart.PETSMART_ASSIGNEE_EMAIL (world st)) in
     let body :=
       petsmart_body p
         (snd (http_get_users Petsmart.PETSMART_ASSIGNEE_EMAIL (world st))) in
     snd (http_post_issue body w1) = Rejected (HasRequest m) ->
     calls (fst run)
     = calls st ++ [GetUserSearch Petsmart.PETSMART_ASSIGNEE_EMAIL;
                    PostIssue body] /\
     snd run
     = inr (newError
              (lit "Failed to create JIRA ticket in DEX project: Network error: Unable to reach JIRA server"))).
Proof.
  intros World get post env p st m Hvalid. split; cbv zeta.
  - destruct (get Dex.ALEX_WALD_EMAIL (world st)) as [w1 r1] eqn:Hget.
    cbn [fst snd].
    destruct (post (dex_body p r1) w1) as [w2 r2] eqn:Hp.
    cbn [snd]. intros ->.
    rewrite (Dex_run get post env p st Hvalid Hget Hp).
    split; reflexivity.
  - destruct (get Petsmart.PETSMART_ASSIGNEE_EMAIL (world st))
      as [w1 r1] eqn:Hget.
    cbn [fst snd].
    destruct (post (petsmart_body p r1) w1) as [w2 r2] eqn:Hp.
    cbn [snd]. intros ->.
    rewrite (Petsmart_run get post env p st Hvalid Hget Hp).
    split; reflexivity.
Qed.

Lemma X11_witness :
  valid request_ok = true /\
  snd (post_rejected (HasRequest (lit "timeout of 30000ms exceeded"))
         (petsmart_body request_ok
            (snd (users_found Petsmart.PETSMART_ASSIGNEE_EMAIL (world st0))))
         (fst (users_found Petsmart.PETSMART_ASSIGNEE_EMAIL (world st0))))
  = Rejected (HasRequest (lit "timeout of 30000ms exceeded")) /\
  snd (Petsmart.createJiraTicket users_found
         (post_rejected (HasRequest (lit "timeout of 30000ms exceeded")))
         base_url request_ok st0)
  = inr (newError
           (lit "Failed to create JIRA ticket in DEX project: Network error: Unable to reach JIRA server")).
Proof.
  assert (H : valid request_ok = true) by (vm_compute; reflexivity).
  split; [exact H|]. split; [reflexivity|].
  exact (proj2 (proj2 (@X11_no_response_text_is_fixed unit users_found
                  (post_rejected (HasRequest (lit "timeout of 30000ms exceeded")))
                  base_url request_ok st0
                  (lit "timeout of 30000ms exceeded") H) eq_refl)).
Defined.

End Extras.

(** ** The markdown conversion, further *)

Section ConversionExtras.

Import Petsmart Checklist Shapes Fixtures.

(** X12.  A text that holds no [[] and none of the two code units that
    start the emoji literals of the source (U+F8FF, U+201A) comes out of
    [convertOpalMarkdownToJira] as it went in: ordinary prose, headings,
    plain bullets and blank lines are not touched. *)
Theorem X12_plain_text_is_unchanged :
  forall s : jsstring,
    plain s = true -> convertOpalMarkdownToJira s = s.
Proof.
  intros s Hs. unfold plain in Hs. apply andb_true_iff in Hs as [Hb He].
  unfold convertOpalMarkdownToJira. cbv zeta.
  rewrite blank_line_step_identity. unfold replace_g.
  rewrite (checkbox_step_no_bracket s None Hb).
  now apply emoji_step_plain.
Qed.

Lemma X12_witness :
  plain (lit "# Plan" ++ [10; 10]%N ++ lit "- first" ++ [10]%N ++ lit "* second")
  = true /\
  convertOpalMarkdownToJira
    (lit "# Plan" ++ [10; 10]%N ++ lit "- first" ++ [10]%N ++ lit "* second")
  = lit "# Plan" ++ [10; 10]%N ++ lit "- first" ++ [10]%N ++ lit "* second".
Proof.
  split; [reflexivity|].
  exact (X12_plain_text_is_unchanged
           (lit "# Plan" ++ [10; 10]%N ++ lit "- first" ++ [10]%N ++
            lit "* second") eq_refl).
Defined.

(** X13.  Every key of [emojiMap] is found by the emoji expression and
    replaced by its value: in a text that is plain around it, each of the
    fifteen literals becomes its shortcode and nothing else changes.  No
    literal is hidden by an earlier alternative. *)
Theorem X13_emoji_literal_becomes_its_shortcode :
  forall (key value a b : jsstring),
    In (key, value) emojiMap ->
    plain a = true -> plain b = true ->
    convertOpalMarkdownToJira (a ++ key ++ b) = a ++ value ++ b.
Proof.
  intros key value a b Hin Ha Hb.
  unfold plain in Ha, Hb.
  apply andb_true_iff in Ha as [Hab Hae].
  apply andb_true_iff in Hb as [Hbb Hbe].
  assert (Hkey : no_bracket key = true /\ key <> [] /\
                 emoji_replacer key [] = value /\
                 forall prev,
                   match_here emoji_re prev (key ++ b) = Some (b, [])).
  { unfold emojiMap in Hin. simpl in Hin.
    repeat (destruct Hin as [Hin|Hin];
            [injection Hin as <- <-;
             repeat split; try reflexivity; discriminate|]).
    contradiction. }
  destruct Hkey as (Hkb & Hkne & Hrep & Hmatch).
  unfold convertOpalMarkdownToJira. cbv zeta.
  rewrite blank_line_step_identity. unfold replace_g.
  rewrite checkbox_step_no_bracket.
  2:{ rewrite !no_bracket_app, Hab, Hkb, Hbb. reflexivity. }
  rewrite emoji_scan_prefix by assumption.
  rewrite (@replace_loop_hit_app emoji_re emoji_replacer _ key b []
             Hkne (Hmatch _)).
  rewrite Hrep, emoji_step_plain by assumption.
  reflexivity.
Qed.

Lemma X13_witness :
  In ([0x201a; 0xfa; 0xd6]%N, lit ":white_check_mark:") emojiMap /\
  plain (lit "done ") = true /\ plain (lit " today") = true /\
  convertOpalMarkdownToJira
    (lit "done " ++ [0x201a; 0xfa; 0xd6]%N ++ lit " today")
  = lit "done " ++ lit ":white_check_mark:" ++ lit " today".
Proof.
  assert (Hin : In ([0x201a; 0xfa; 0xd6]%N, lit ":white_check_mark:") emojiMap)
    by (unfold emojiMap; simpl; tauto).
  split; [exact Hin|]. split; [reflexivity|]. split; [reflexivity|].
  exact (@X13_emoji_literal_becomes_its_shortcode
           [0x201a; 0xfa; 0xd6]%N (lit ":white_check_mark:") (lit "done ")
           (lit " today") Hin eq_refl eq_refl).
Defined.

(** X14.  The checkbox expression takes white space of any kind, line
    breaks included, before the bullet, between bullet and box, and between
    box and text.  An item written that way, with a text that is not empty,
    holds no line terminator and does not start with white space, is
    rewritten to [[] text]: indentation and blank lines before it are
    dropped, and a text on the line after the box is pulled up.  This holds
    for the item alone and wherever the scan stands at the start of a line
    with the item ending at the end of a line. *)
Theorem X14_checkbox_item_in_general_form :
  forall (ws1 : jsstring) (b : char16) (ws2 : jsstring) (m : char16)
         (ws3 text : jsstring),
    forallb isSpace ws1 = true -> forallb isSpace ws2 = true ->
    forallb isSpace ws3 = true ->
    isDashOrStar b = true -> isBlankOrX m = true -> text_ok text = true ->
    normalizeCheckboxes (loose_item ws1 b ws2 m ws3 text) = lit "[] " ++ text
    /\
    (forall (prev : option char16) (rest : jsstring),
        at_bol prev = true -> at_eol rest = true ->
        exists c,
          isLineTerminator c = false /\
          replace_loop checkbox_re checkbox_replacer 0 prev
                       (loose_item ws1 b ws2 m ws3 text ++ rest)
          = lit "[] " ++ text ++
            replace_loop checkbox_re checkbox_replacer 0 (Some c) rest).
Proof.
  intros ws1 b ws2 m ws3 text H1 H2 H3 Hb Hm Ht.
  assert (Hgen : forall prev rest,
             at_bol prev = true -> at_eol rest = true ->
             exists c,
               isLineTerminator c = false /\
               replace_loop checkbox_re checkbox_replacer 0 prev
                            (loose_item ws1 b ws2 m ws3 text ++ rest)
               = lit "[] " ++ text ++
                 replace_loop checkbox_re checkbox_replacer 0 (Some c) rest).
  { intros prev rest Hbol Heol.
    pose proof (checkbox_loose_match prev ws1 b ws2 m ws3 text rest
                  Hbol H1 H2 H3 Hb Hm Ht Heol) as Hmatch.
    destruct (ChecklistFacts.text_ok_inv _ Ht) as (c0 & t' & E & _ & Hd).
    assert (Hne : text <> []) by (rewrite E; discriminate).
    destruct (ChecklistFacts.prev_after_text Hne) as (c & Hc & Hlt);
      [exact Hd|].
    exists c. split; [exact Hlt|].
    assert (Eshape : loose_item ws1 b ws2 m ws3 text
                     = (ws1 ++ b :: ws2 ++ ch "[" :: m :: ch "]" :: ws3) ++ text).
    { unfold loose_item.
      repeat (rewrite <- ?app_assoc, <- ?app_comm_cons). reflexivity. }
    assert (Eall : loose_item ws1 b ws2 m ws3 text ++ rest
                   = ws1 ++ b :: ws2 ++ ch "[" :: m :: ch "]" :: ws3 ++
                     text ++ rest).
    { unfold loose_item.
      repeat (rewrite <- ?app_assoc, <- ?app_comm_cons). reflexivity. }
    rewrite <- Eall in Hmatch.
    rewrite (@replace_loop_hit_app checkbox_re checkbox_replacer prev
               (loose_item ws1 b ws2 m ws3 text) rest
               [(2, text); (1, [m])]).
    - rewrite Eshape, ChecklistFacts.prev_after_app_nonempty, Hc by exact Hne.
      unfold checkbox_replacer. cbn [get_cap Nat.eqb].
      now rewrite <- app_assoc.
    - rewrite Eshape. intros E0. apply app_eq_nil in E0 as [_ E0].
      contradiction.
    - exact Hmatch. }
  split; [|exact Hgen].
  destruct (Hgen None [] eq_refl eq_refl) as (c & Hc & E).
  unfold normalizeCheckboxes, replace_g.
  rewrite app_nil_r in E. rewrite E.
  rewrite replace_loop_miss_nil
    by now apply ChecklistFacts.checkbox_not_at_bol.
  now rewrite app_nil_r.
Qed.

Lemma X14_witness :
  forallb isSpace ([10; 32; 32]%N) = true /\
  forallb isSpace [] = true /\
  forallb isSpace ([10; 9]%N) = true /\
  isDashOrStar (ch "*") = true /\ isBlankOrX (ch "x") = true /\
  text_ok (lit "call Bob") = true /\
  normalizeCheckboxes
    ([10; 32; 32]%N ++ lit "*[x]" ++ [10; 9]%N ++ lit "call Bob")
  = lit "[] call Bob".
Proof.
  repeat (split; [reflexivity|]).
  exact (proj1 (@X14_checkbox_item_in_general_form
                  ([10; 32; 32]%N) (ch "*") [] (ch "x") ([10; 9]%N)
                  (lit "call Bob")
                  eq_refl eq_refl eq_refl eq_refl eq_refl eq_refl)).
Defined.

(** X15.  Check-lists.  Take a description made of lines joined by a line
    feed, none of which holds a line terminator of any kind (LF, CR, LS,
    PS), each either a checkbox line [- [ ] text], [- [x] text],
    [* [ ] text], [* [x] text] whose text is not empty and does not start
    with white space, or a non-empty line that starts with neither white
    space, [-] nor [*].  The checkbox normalization rewrites every checkbox
    line of it to [[] text] and leaves the other lines as they are, and the
    converted description is the same whether the boxes are checked or not.
    More generally, wherever the scan of the replace stands at the start of
    such a line, outside an earlier match, the line is rewritten whatever
    follows its end, and the scan resumes after it. *)
Theorem X15_checklist_lines_are_rewritten :
  forall ls : list Line,
    forallb line_ok ls = true ->
    normalizeCheckboxes (document ls)
    = join_lines (map rewritten ls) /\
    convertOpalMarkdownToJira (document ls)
    = convertOpalMarkdownToJira
        (document (map uncheck ls)) /\
    (forall (prev : option char16) (l : Line) (rest : jsstring),
        at_bol prev = true ->
        line_ok l = true ->
        at_eol rest = true ->
        exists c,
          isLineTerminator c = false /\
          replace_loop checkbox_re checkbox_replacer 0 prev
                       (render l ++ rest)
          = rewritten l ++
            replace_loop checkbox_re checkbox_replacer 0
                         (Some c) rest).
Proof.
  intros ls Hok.
  apply and_assoc. split; [|exact ChecklistFacts.scan_line].
  assert (Hstep : forall l, forallb line_ok l = true ->
            normalizeCheckboxes (document l)
            = join_lines (map rewritten l)).
  { intros l Hl. unfold normalizeCheckboxes, replace_g.
    now apply ChecklistFacts.scan_document. }
  split; [now apply Hstep|].
  assert (Hun : forallb line_ok (map uncheck ls) = true).
  { rewrite forallb_forall in *. intros l Hin.
    apply in_map_iff in Hin as (l0 & <- & Hin0).
    specialize (Hok l0 Hin0). destruct l0 as [b m t|t]; [|exact Hok].
    simpl in *. apply andb_true_iff in Hok as [Hok Ht].
    apply andb_true_iff in Hok as [Hb _]. now rewrite Hb, Ht. }
  unfold convertOpalMarkdownToJira. cbv zeta.
  fold (normalizeCheckboxes (document ls)).
  fold (normalizeCheckboxes
          (document (map uncheck ls))).
  rewrite (Hstep _ Hok), (Hstep _ Hun), map_map.
  do 3 f_equal. apply map_ext. intros [b m t|t]; reflexivity.
Qed.

Lemma X15_witness :
  forallb line_ok shopping = true /\
  normalizeCheckboxes (document shopping)
  = lit "[] buy milk" ++ [10%N] ++ lit "Notes:" ++ [10%N] ++ lit "[] call Bob".
Proof.
  split; [reflexivity|].
  exact (proj1 (X15_checklist_lines_are_rewritten shopping eq_refl)).
Defined.

End ConversionExtras.
